(** * URL shortener service: a shallow embedding of [app.py]

    The service keeps one SQLite table [urls] and answers six routes.
    Python values are modelled as follows.
    - A Python [str] that encodes to UTF-8 is a Rocq [string] holding those
      bytes; a [str] with a lone surrogate, which [str.encode] refuses, has
      a form of its own ([pystr]).  Every text operation of the handlers
      ([startswith], [in], [+], slicing of an ASCII-only string) commutes
      with the encoding.
    - The table is the list of its rows in rowid order; a committed INSERT
      appends one row.
    - [hashlib.md5] is MD5 as RFC 1321 defines it, over 32-bit words carried
      by [Z] with the wrap-around written out.
    - [random] is an explicit generator state threaded through the calls.
    - [print] only writes to the log and is left out. *)

From Stdlib Require Import ZArith List String Ascii Bool Lia.
From Stdlib Require Import DecimalString Sorted Permutation QArith.
Import ListNotations.

Close Scope Q_scope.
Set Warnings "-register-all".
Open Scope string_scope.
Open Scope list_scope.

(** ** Python exceptions *)

Inductive exn : Type :=
| TypeError (msg : string)
| AttributeError (msg : string)
| KeyError (msg : string)
| ValueError (msg : string)
| UnicodeEncodeError (msg : string)
| FileNotFoundError (msg : string)
| OSError (msg : string)
| IntegrityError (msg : string)
| HTTPException (msg : string).

(** [str(e)]. *)
Definition exn_str (e : exn) : string :=
  match e with
  | TypeError m | AttributeError m | KeyError m | ValueError m
  | UnicodeEncodeError m | FileNotFoundError m | OSError m
  | IntegrityError m | HTTPException m => m
  end.

Inductive result (A : Type) : Type :=
| Ok (a : A)
| Raise (e : exn).

Arguments Ok {A} a.
Arguments Raise {A} e.

(** ** Python strings *)

(** A Python [str].  [Str utf8] is a str that [encode] accepts, held as its
    UTF-8 bytes.  [Surr before k after] is a str that holds a lone
    surrogate: [before] is the UTF-8 of what stands before the first one,
    that one is U+D800 + [k mod 2048], and [after] is what follows it, each
    code point in UTF-8 and each further surrogate in the three bytes that
    the [surrogatepass] handler would write for it. *)
Inductive pystr : Type :=
| Str (utf8 : string)
| Surr (before : string) (k : nat) (after : string).

Coercion Str : string >-> pystr.

Module PyStr.

(** [s[:n]] for an int [n]: a negative [n] counts from the end. *)
Definition slice_to (n : Z) (s : string) : string :=
  if (0 <=? n)%Z then substring 0 (Z.to_nat n) s
  else substring 0 (String.length s - Z.to_nat (- n)) s.

(** [s.startswith(p)]. *)
Definition startswith (p s : string) : bool := prefix p s.

(** [s.startswith((p1, p2, ...))]: true when one of the prefixes fits. *)
Definition startswith_any (ps : list string) (s : string) : bool :=
  existsb (fun p => startswith p s) ps.

(** [p in s] on two strings: [p] occurs as a substring of [s]. *)
Fixpoint contains (p s : string) : bool :=
  prefix p s ||
  match s with
  | EmptyString => false
  | String _ s' => contains p s'
  end.

(** [str(n)] for a non-negative integer. *)
Definition str (n : nat) : string := NilEmpty.string_of_uint (Nat.to_uint n).

(** [''.join(l)] on a list of characters. *)
Definition join := string_of_list_ascii.

(** The three bytes of the surrogate U+D800 + [k mod 2048]. *)
Definition surrogate_bytes (k : nat) : string :=
  String (ascii_of_nat 237)
    (String (ascii_of_nat (160 + (k mod 2048) / 64))
       (String (ascii_of_nat (128 + k mod 64)) "")).

(** The bytes of a str, surrogates included: what the text operations of
    the handlers work on. *)
Definition bytes (p : pystr) : string :=
  match p with
  | Str s => s
  | Surr before k after => (before ++ surrogate_bytes k ++ after)%string
  end.

(** [p + s] for a str [s] that [encode] accepts. *)
Definition add (p : pystr) (s : string) : pystr :=
  match p with
  | Str s0 => Str (s0 ++ s)
  | Surr before k after => Surr before k (after ++ s)
  end.

(** The number of code points of a str given by its bytes: the bytes that
    are not continuation bytes. *)
Fixpoint code_points (s : string) : nat :=
  match s with
  | EmptyString => 0
  | String c s' =>
      let b := nat_of_ascii c in
      (if (128 <=? b)%nat && (b <=? 191)%nat then 0 else 1) + code_points s'
  end.

(** How many surrogates stand at the head of [s]. *)
Fixpoint leading_surrogates (s : string) : nat :=
  match s with
  | String c1 (String c2 (String _ rest)) =>
      if (nat_of_ascii c1 =? 237)%nat
         && (160 <=? nat_of_ascii c2)%nat && (nat_of_ascii c2 <=? 191)%nat
      then S (leading_surrogates rest)
      else 0
  | _ => 0
  end.

Definition hex_digit (n : nat) : string :=
  String (nth n (list_ascii_of_string "0123456789abcdef") "0"%char) "".

(** The text of the UnicodeEncodeError that [encode] raises on the first
    run of surrogates. *)
Definition encode_error (before : string) (k : nat) (after : string)
  : string :=
  let first := code_points before in
  let run := S (leading_surrogates after) in
  let k' := k mod 2048 in
  if (run =? 1)%nat then
    ("'utf-8' codec can't encode character '\ud"
       ++ hex_digit (8 + k' / 256) ++ hex_digit ((k' / 16) mod 16)
       ++ hex_digit (k' mod 16)
       ++ "' in position " ++ str first ++ ": surrogates not allowed")%string
  else
    ("'utf-8' codec can't encode characters in position "
       ++ str first ++ "-" ++ str (first + run - 1)
       ++ ": surrogates not allowed")%string.

(** [p.encode()], UTF-8 with the strict error handler. *)
Definition encode (p : pystr) : result string :=
  match p with
  | Str s => Ok s
  | Surr before k after =>
      Raise (UnicodeEncodeError (encode_error before k after))
  end.

End PyStr.

(** ** hashlib.md5 *)

Module MD5.

Local Open Scope Z_scope.

Definition w32 (x : Z) : Z := x mod 2 ^ 32.

Definition rotl (x n : Z) : Z :=
  w32 (Z.lor (Z.shiftl x n) (Z.shiftr x (32 - n))).

Definition not32 (x : Z) : Z := Z.lxor x 4294967295.

Definition shifts : list Z :=
  [7; 12; 17; 22; 7; 12; 17; 22; 7; 12; 17; 22; 7; 12; 17; 22;
   5; 9; 14; 20; 5; 9; 14; 20; 5; 9; 14; 20; 5; 9; 14; 20;
   4; 11; 16; 23; 4; 11; 16; 23; 4; 11; 16; 23; 4; 11; 16; 23;
   6; 10; 15; 21; 6; 10; 15; 21; 6; 10; 15; 21; 6; 10; 15; 21].

(** [K i = floor (2^32 * |sin (i + 1)|)]. *)
Definition K : list Z :=
  [3614090360; 3905402710; 606105819; 3250441966;
   4118548399; 1200080426; 2821735955; 4249261313;
   1770035416; 2336552879; 4294925233; 2304563134;
   1804603682; 4254626195; 2792965006; 1236535329;
   4129170786; 3225465664; 643717713; 3921069994;
   3593408605; 38016083; 3634488961; 3889429448;
   568446438; 3275163606; 4107603335; 1163531501;
   2850285829; 4243563512; 1735328473; 2368359562;
   4294588738; 2272392833; 1839030562; 4259657740;
   2763975236; 1272893353; 4139469664; 3200236656;
   681279174; 3936430074; 3572445317; 76029189;
   3654602809; 3873151461; 530742520; 3299628645;
   4096336452; 1126891415; 2878612391; 4237533241;
   1700485571; 2399980690; 4293915773; 2240044497;
   1873313359; 4264355552; 2734768916; 1309151649;
   4149444226; 3174756917; 718787259; 3951481745].

Record regs := Regs { rA : Z; rB : Z; rC : Z; rD : Z }.

Definition init : regs := Regs 1732584193 4023233417 2562383102 271733878.

(** The round function and the message index of step [i]. *)
Definition mix (i : nat) (b c d : Z) : Z * nat :=
  if (i <? 16)%nat then
    (Z.lor (Z.land b c) (Z.land (not32 b) d), i)
  else if (i <? 32)%nat then
    (Z.lor (Z.land d b) (Z.land (not32 d) c), (5 * i + 1) mod 16)%nat
  else if (i <? 48)%nat then
    (Z.lxor (Z.lxor b c) d, (3 * i + 5) mod 16)%nat
  else
    (Z.lxor c (Z.lor b (not32 d)), (7 * i) mod 16)%nat.

Definition step (m : list Z) (r : regs) (i : nat) : regs :=
  let '(f, g) := mix i (rB r) (rC r) (rD r) in
  let f' := w32 (f + rA r + nth i K 0 + nth g m 0) in
  Regs (rD r) (w32 (rB r + rotl f' (nth i shifts 0))) (rB r) (rC r).

(** Little-endian 32-bit words of a block of bytes. *)
Fixpoint words (fuel : nat) (bs : list Z) : list Z :=
  match fuel, bs with
  | S fuel', b0 :: b1 :: b2 :: b3 :: rest =>
      (b0 + 256 * b1 + 65536 * b2 + 16777216 * b3) :: words fuel' rest
  | _, _ => []
  end.

Definition compress (r : regs) (block : list Z) : regs :=
  let m := words 16 block in
  let r' := fold_left (step m) (seq 0 64) r in
  Regs (w32 (rA r + rA r')) (w32 (rB r + rB r'))
       (w32 (rC r + rC r')) (w32 (rD r + rD r')).

(** [n] bytes of [x], least significant first. *)
Fixpoint le_bytes (n : nat) (x : Z) : list Z :=
  match n with
  | O => []
  | S n' => x mod 256 :: le_bytes n' (x / 256)
  end.

Definition pad (msg : list Z) : list Z :=
  let len := Z.of_nat (List.length msg) in
  msg ++ [128] ++ repeat 0 (Z.to_nat ((55 - len) mod 64))
      ++ le_bytes 8 ((8 * len) mod 2 ^ 64).

Fixpoint blocks (fuel : nat) (bs : list Z) : list (list Z) :=
  match fuel, bs with
  | S fuel', _ :: _ => firstn 64 bs :: blocks fuel' (skipn 64 bs)
  | _, _ => []
  end.

Definition digest (msg : list Z) : list Z :=
  let p := pad msg in
  let r := fold_left compress (blocks (List.length p) p) init in
  le_bytes 4 (rA r) ++ le_bytes 4 (rB r) ++ le_bytes 4 (rC r)
           ++ le_bytes 4 (rD r).

Definition hex_digits : list ascii :=
  list_ascii_of_string "0123456789abcdef".

Definition hex_digit (n : Z) : ascii :=
  nth (Z.to_nat n) hex_digits "0"%char.

Definition hex_of_byte (b : Z) : list ascii :=
  [hex_digit (b / 16); hex_digit (b mod 16)].

Definition bytes_of_string (s : string) : list Z :=
  map (fun c => Z.of_nat (nat_of_ascii c)) (list_ascii_of_string s).

(** [hashlib.md5(s.encode()).hexdigest()]. *)
Definition hexdigest (s : string) : string :=
  string_of_list_ascii (flat_map hex_of_byte (digest (bytes_of_string s))).

End MD5.

(** ** The random module *)

(** The generator state: the sequence of indices that the coming draws will
    pick, and how many draws were made. *)
Record Rng := MkRng { draws : nat -> nat; used : nat }.

Module PyRandom.

(** [string.ascii_letters + string.digits]. *)
Definition alphabet : list ascii :=
  list_ascii_of_string
    "abcdefghijklmnopqrstuvwxyzABCDEFGHIJKLMNOPQRSTUVWXYZ0123456789".

(** One draw of [random.choices]: an element of the population. *)
Definition choice (pop : list ascii) (g : Rng) : ascii * Rng :=
  (nth (draws g (used g) mod List.length pop) pop "a"%char,
   MkRng (draws g) (S (used g))).

(** [random.choices(pop, k=k)]. *)
Fixpoint choices (pop : list ascii) (k : nat) (g : Rng)
  : list ascii * Rng :=
  match k with
  | O => ([], g)
  | S k' =>
      let '(c, g1) := choice pop g in
      let '(cs, g2) := choices pop k' g1 in
      (c :: cs, g2)
  end.

End PyRandom.

(** ** generate_short_code *)

Definition default_length : Z := 6.

(** [length] is an int; [url.encode()] is the first thing to run, so a url
    that it refuses costs no random draw. *)
Definition generate_short_code (url : pystr) (length : Z) (g : Rng)
  : result string * Rng :=
  match PyStr.encode url with
  | Raise e => (Raise e, g)
  | Ok encoded =>
      let hash_hex := MD5.hexdigest encoded in
      let '(cs, g') := PyRandom.choices PyRandom.alphabet 3 g in
      let random_chars := PyStr.join cs in
      let combined := (hash_hex ++ random_chars)%string in
      (Ok (PyStr.slice_to length combined), g')
  end.

(** ** JSON values

    What [request.get_json] returns and what [jsonify] takes.  An object is
    the list of its members; a key is looked up from the front. *)

Inductive json : Type :=
| JNull
| JBool (b : bool)
| JInt (n : Z)
| JFloat (q : Q)
| JStr (s : pystr)
| JArr (l : list json)
| JObj (d : list (string * json)).

Fixpoint dict_get (k : string) (d : list (string * json)) : option json :=
  match d with
  | [] => None
  | (k', v) :: d' => if (k' =? k)%string then Some v else dict_get k d'
  end.

(** ** The operations of Python on JSON values *)

Module Py.

(** [type(v).__name__]. *)
Definition type_name (v : json) : string :=
  match v with
  | JNull => "NoneType"
  | JBool _ => "bool"
  | JInt _ => "int"
  | JFloat _ => "float"
  | JStr _ => "str"
  | JArr _ => "list"
  | JObj _ => "dict"
  end.

(** [bool(v)], the test behind [not v] and [if v]. *)
Definition truthy (v : json) : bool :=
  match v with
  | JNull => false
  | JBool b => b
  | JInt n => negb (n =? 0)%Z
  | JFloat q => negb (Qeq_bool q 0)
  | JStr s => negb (PyStr.bytes s =? "")%string
  | JArr l => negb (Nat.eqb (List.length l) 0)
  | JObj d => negb (Nat.eqb (List.length d) 0)
  end.

(** [k == v] for a string [k]. *)
Definition str_eq (k : string) (v : json) : bool :=
  match v with
  | JStr (Str s) => (k =? s)%string
  | _ => false
  end.

(** [k in v] for a string [k]: substring of a string, element of a list,
    key of a dict; the other types are not containers. *)
Definition contains (k : string) (v : json) : result bool :=
  match v with
  | JStr s => Ok (PyStr.contains k (PyStr.bytes s))
  | JArr l => Ok (existsb (str_eq k) l)
  | JObj d => Ok (existsb (fun kv => (fst kv =? k)%string) d)
  | _ =>
      Raise (TypeError
               ("argument of type '" ++ type_name v ++ "' is not iterable"))
  end.

(** [v[k]] for a string [k]. *)
Definition getitem (v : json) (k : string) : result json :=
  match v with
  | JObj d =>
      match dict_get k d with
      | Some x => Ok x
      | None => Raise (KeyError ("'" ++ k ++ "'"))
      end
  | JStr _ => Raise (TypeError "string indices must be integers, not 'str'")
  | JArr _ =>
      Raise (TypeError "list indices must be integers or slices, not str")
  | _ =>
      Raise (TypeError ("'" ++ type_name v ++ "' object is not subscriptable"))
  end.

End Py.

(** ** The [urls] table *)

Module Db.

Record UrlRecord := MkUrlRecord {
  id : Z;
  short_code : string;
  long_url : string;
  created_at : string
}.

(** The rows in rowid order. *)
Definition Store := list UrlRecord.

Definition has_code (code : string) (r : UrlRecord) : bool :=
  (short_code r =? code)%string.

(** [SELECT id FROM urls WHERE short_code = ?] followed by [fetchone]. *)
Definition select_id (s : Store) (code : string) : option Z :=
  option_map id (find (has_code code) s).

(** [SELECT long_url FROM urls WHERE short_code = ?] followed by
    [fetchone]. *)
Definition select_long_url (s : Store) (code : string) : option string :=
  option_map long_url (find (has_code code) s).

(** [id INTEGER PRIMARY KEY AUTOINCREMENT]: one more than the largest id in
    use (no row is ever deleted). *)
Definition next_id (s : Store) : Z :=
  (1 + fold_right Z.max 0 (map id s))%Z.

(** [INSERT INTO urls (short_code, long_url) VALUES (?, ?)] and [commit].
    [short_code TEXT UNIQUE] makes the statement fail on a code in use;
    [created_at] takes [CURRENT_TIMESTAMP]. *)
Definition insert (s : Store) (code url now : string) : result Store :=
  if existsb (has_code code) s then
    Raise (IntegrityError "UNIQUE constraint failed: urls.short_code")
  else
    Ok (s ++ [MkUrlRecord (next_id s) code url now]).

(** A str given as a parameter of a statement: sqlite3 encodes it to UTF-8
    and refuses a lone surrogate as [encode] does. *)
Definition bind (p : pystr) : result string := PyStr.encode p.

(** [SELECT COUNT( * ) FROM urls]. *)
Definition count (s : Store) : nat := List.length s.

(** [ORDER BY created_at DESC]: text values compare bytewise.  SQL leaves
    the order of rows with equal keys open; here they keep rowid order. *)
Fixpoint place (r : UrlRecord) (sorted : list UrlRecord)
  : list UrlRecord :=
  match sorted with
  | [] => [r]
  | r' :: rest =>
      if String.leb (created_at r') (created_at r) then r :: r' :: rest
      else r' :: place r rest
  end.

Definition order_by_created_at_desc (s : Store) : list UrlRecord :=
  fold_right place [] s.

(** [SELECT short_code, long_url, created_at FROM urls
     ORDER BY created_at DESC LIMIT 10] followed by [fetchall]. *)
Definition select_recent (s : Store) : list UrlRecord :=
  firstn 10 (order_by_created_at_desc s).

End Db.

(** ** Requests, responses and the state of the service *)

(** The Location header that goes out for the text given to [redirect].
    Werkzeug sends printable ASCII without a space as it is; any other text
    goes through its [iri_to_uri] (percent-encoding, IDNA), which is not
    computed here: [UriForm iri] stands for what that makes of [iri]. *)
Inductive Location : Type :=
| Verbatim (uri : string)
| UriForm (iri : string).

(** [Unhandled e]: the HTML page Flask makes of an exception that left the
    view (the debugger's page under [debug=True]). *)
Inductive Payload : Type :=
| Json (j : json)
| Redirect (location : Location)
| Html (text : string)
| Unhandled (e : exn).

Record Response := MkResponse { payload : Payload; status : nat }.

(** [jsonify(obj), code]; a bare [jsonify(obj)] answers 200. *)
Definition jsonify (members : list (string * json)) (code : nat) : Response :=
  MkResponse (Json (JObj members)) code.

Module Werkzeug.

(** A carriage return or a line feed occurs in [s]. *)
Definition has_newline (s : string) : bool :=
  existsb (fun c => (nat_of_ascii c =? 10)%nat || (nat_of_ascii c =? 13)%nat)
          (list_ascii_of_string s).

(** Every byte of [s] is printable ASCII other than the space. *)
Definition uri_plain (s : string) : bool :=
  forallb (fun c => (33 <=? nat_of_ascii c)%nat && (nat_of_ascii c <=? 126)%nat)
          (list_ascii_of_string s).

Definition location_header (s : string) : Location :=
  if uri_plain s then Verbatim s else UriForm s.

(** [redirect(location)], a 302 by default.  Setting the Location header
    raises ValueError on a value with a carriage return or a line feed (the
    text is that of Werkzeug 3). *)
Definition redirect (location : string) : result Response :=
  if has_newline location then
    Raise (ValueError "Header values must not contain newline characters.")
  else Ok (MkResponse (Redirect (location_header location)) 302).

End Werkzeug.

(** What a request finds outside the process: the clock of SQLite
    ([CURRENT_TIMESTAMP], text of the form YYYY-MM-DD HH:MM:SS), the clock of
    [time.time] and what opening and reading [index.html] gives: its text
    or the exception raised. *)
Record Env := MkEnv {
  current_timestamp : string;
  time_time : Q;
  index_html : result string
}.

Record World := MkWorld { db : Db.Store; rng : Rng }.

(** ** A state and exception monad for the handler bodies *)

Definition M (A : Type) : Type := World -> result A * World.

Definition ret {A} (a : A) : M A := fun w => (Ok a, w).

Definition raise {A} (e : exn) : M A := fun w => (Raise e, w).

Definition bind {A B} (m : M A) (k : A -> M B) : M B :=
  fun w =>
    match m w with
    | (Ok a, w') => k a w'
    | (Raise e, w') => (Raise e, w')
    end.

Definition lift {A} (r : result A) : M A := fun w => (r, w).

(** [try: m except Exception as e: h e]. *)
Definition try_except {A} (m : M A) (h : exn -> A) : World -> A * World :=
  fun w =>
    match m w with
    | (Ok a, w') => (a, w')
    | (Raise e, w') => (h e, w')
    end.

Declare Scope monad_scope.
Delimit Scope monad_scope with monad.
Notation "x <- m ;; k" := (bind m (fun x => k))
  (at level 61, m at next level, right associativity) : monad_scope.
Notation "m ;;; k" := (bind m (fun _ => k))
  (at level 61, right associativity) : monad_scope.

Local Open Scope monad_scope.

Definition with_rng {A} (f : Rng -> result A * Rng) : M A :=
  fun w => let '(a, g) := f (rng w) in (a, MkWorld (db w) g).

Definition read_db {A} (q : Db.Store -> A) : M A :=
  fun w => (Ok (q (db w)), w).

Definition write_db (u : Db.Store -> result Db.Store) : M unit :=
  fun w =>
    match u (db w) with
    | Ok s => (Ok tt, MkWorld s (rng w))
    | Raise e => (Raise e, w)
    end.

(** ** The handlers *)

Definition max_attempts : nat := 5.

Definition base_url : string := "http://localhost:5000/".

(** The [for attempt in range(max_attempts)] loop of [shorten_url]:
    [Some code] when it leaves through [break], [None] when it runs into its
    [else] branch. *)
Fixpoint collision_loop (long_url : pystr) (attempts : list nat)
  (short_code : string) : M (option string) :=
  match attempts with
  | [] => ret None
  | attempt :: rest =>
      row <- read_db (fun s => Db.select_id s short_code) ;;
      match row with
      | None => ret (Some short_code)
      | Some _ =>
          short_code' <-
            with_rng
              (generate_short_code (PyStr.add long_url (PyStr.str attempt))
                                   default_length) ;;
          collision_loop long_url rest short_code'
      end
  end.

(** The body of the [try] block of [shorten_url]. *)
Definition shorten_url_try (env : Env) (body : result json) : M Response :=
  data <- lift body ;;
  missing <-
    (if negb (Py.truthy data) then ret true
     else found <- lift (Py.contains "url" data) ;; ret (negb found)) ;;
  if (missing : bool) then
    ret (jsonify [("error", JStr "URL is required")] 400)
  else
    long_url <- lift (Py.getitem data "url") ;;
    match long_url with
    | JStr long_url =>
        if negb (PyStr.startswith_any ["http://"; "https://"]
                                      (PyStr.bytes long_url)) then
          ret (jsonify
                 [("error", JStr "URL must start with http:// or https://")]
                 400)
        else
          short_code <-
            with_rng (generate_short_code long_url default_length) ;;
          found <- collision_loop long_url (seq 0 max_attempts) short_code ;;
          match found with
          | None =>
              ret (jsonify
                     [("error", JStr "Failed to generate unique short code")]
                     500)
          | Some short_code =>
              text <- lift (Db.bind long_url) ;;
              write_db (fun s =>
                          Db.insert s short_code text
                                    (current_timestamp env)) ;;;
              ret (jsonify
                     [("short_code", JStr short_code);
                      ("short_url", JStr (base_url ++ short_code)%string);
                      ("long_url", JStr long_url)]
                     201)
          end
    | other =>
        raise (AttributeError
                 ("'" ++ Py.type_name other
                      ++ "' object has no attribute 'startswith'")%string)
    end.

Definition error_500 (e : exn) : Response :=
  jsonify [("error", JStr (exn_str e))] 500.

(** [POST /shorten].  [body] is the outcome of [request.get_json()]: the
    parsed JSON value, or the exception Flask raises on a body it cannot
    parse. *)
Definition shorten_url (env : Env) (body : result json)
  : World -> Response * World :=
  try_except (shorten_url_try env body) error_500.

(** [GET /<short_code>], the handler Flask calls for a one-segment path
    that is none of the fixed routes. *)
Definition redirect_url (short_code : string) : World -> Response * World :=
  try_except
    (result <- read_db (fun s => Db.select_long_url s short_code) ;;
     match result with
     | Some long_url => lift (Werkzeug.redirect long_url)
     | None => ret (jsonify [("error", JStr "Short URL not found")] 404)
     end)
    error_500.

(** [GET /stats]. *)
Definition get_stats : World -> Response * World :=
  try_except
    (total_urls <- read_db Db.count ;;
     ret (jsonify
            [("total_shortened_urls", JInt (Z.of_nat total_urls));
             ("service", JStr "URL Shortener");
             ("version", JStr "1.0.0")]
            200))
    error_500.

Definition list_entry (row : Db.UrlRecord) : json :=
  JObj [("short_code", JStr (Db.short_code row));
        ("long_url", JStr (Db.long_url row));
        ("created_at", JStr (Db.created_at row));
        ("short_url", JStr (base_url ++ Db.short_code row)%string)].

(** [GET /list]. *)
Definition list_urls : World -> Response * World :=
  try_except
    (results <- read_db Db.select_recent ;;
     let urls := map list_entry results in
     ret (jsonify
            [("recent_urls", JArr urls);
             ("total_count", JInt (Z.of_nat (List.length urls)))]
            200))
    error_500.

(** [GET /health]. *)
Definition health_check (env : Env) : World -> Response * World :=
  fun w =>
    (jsonify [("status", JStr "healthy"); ("timestamp", JFloat (time_time env))]
             200, w).

Definition nl : string := String (ascii_of_nat 10) "".

Definition dq : string := String (ascii_of_nat 34) "".

(** The usage page that [index] returns when there is no [index.html]. *)
Definition fallback_page : string :=
  String.concat nl
    [""%string;
     "        <h1>URL Shortener API</h1>"%string;
     ("        <p>Save the web interface as " ++ dq ++ "index.html" ++ dq
        ++ " in your project directory to use the browser"
        ++ " interface.</p>")%string;
     "        <h2>API Usage:</h2>"%string;
     "        <pre>"%string;
     "# Shorten URL:"%string;
     "curl -X POST http://localhost:5000/shorten \"%string;
     ("  -H " ++ dq ++ "Content-Type: application/json" ++ dq ++ " \")%string;
     ("  -d '{" ++ dq ++ "url" ++ dq ++ ": " ++ dq ++ "https://www.example.com"
        ++ dq ++ "}'")%string;
     ""%string;
     "# Visit shortened URL:"%string;
     "curl -I http://localhost:5000/SHORT_CODE"%string;
     "        </pre>"%string;
     ("        <p><a href=" ++ dq ++ "/health" ++ dq ++ ">Health Check</a>"
        ++ " | <a href=" ++ dq ++ "/stats" ++ dq ++ ">Stats</a>"
        ++ " | <a href=" ++ dq ++ "/list" ++ dq ++ ">List URLs</a></p>")%string;
     "        "%string].

(** [GET /]: the text of the file when it can be read, the usage page when
    there is no such file; any other exception of [open] or [read] leaves
    the view. *)
Definition index (env : Env) : World -> Response * World :=
  fun w =>
    (match index_html env with
     | Ok text => MkResponse (Html text) 200
     | Raise (FileNotFoundError _) => MkResponse (Html fallback_page) 200
     | Raise e => MkResponse (Unhandled e) 500
     end, w).

Inductive Request : Type :=
| GetIndex
| GetHealth
| PostShorten (body : result json)
| GetCode (short_code : string)
| GetStats
| GetList.

Definition handle (env : Env) (req : Request) : World -> Response * World :=
  match req with
  | GetIndex => index env
  | GetHealth => health_check env
  | PostShorten body => shorten_url env body
  | GetCode short_code => redirect_url short_code
  | GetStats => get_stats
  | GetList => list_urls
  end.

(** The states the service can be in: it starts on an empty table and serves
    one request after the other. *)
Inductive reachable : World -> Prop :=
| reach_init : forall g, reachable (MkWorld [] g)
| reach_step : forall env req w,
    reachable w -> reachable (snd (handle env req w)).

Definition rng0 : Rng := MkRng (fun i => i * 7 + 3) 0.

Definition env0 : Env :=
  MkEnv "2024-01-01 00:00:00" 0
        (Raise (FileNotFoundError
                  "[Errno 2] No such file or directory: 'index.html'")).

Definition post (url : string) : result json := Ok (JObj [("url", JStr url)]).

(** What the generator yields for [url] at the default length, as shown
    below: the head of the digest. *)
Definition code_of (url : string) : string :=
  PyStr.slice_to default_length (MD5.hexdigest url).

(** A lowercase hexadecimal digit: 0-9 or a-f. *)
Definition is_lower_hex (c : ascii) : bool :=
  let n := nat_of_ascii c in
  (((48 <=? n) && (n <=? 57)) || ((97 <=? n) && (n <=? 102)))%nat.

(** The first of [cands] that no row of [s] carries. *)
Definition first_free (s : Db.Store) (cands : list string) : option string :=
  find (fun c => negb (existsb (Db.has_code c) s)) cands.

(** The codes the loop of [shorten_url] looks up, in order, when it starts
    on [first] and every lookup finds a row: the code it generates in its
    last round is never looked up. *)
Definition examined (long_url : string) (attempts : list nat)
  (first : string) : list string :=
  removelast
    (first :: map (fun k => code_of (long_url ++ PyStr.str k)) attempts).

Definition candidates (long_url : string) : list string :=
  examined long_url (seq 0 max_attempts) (code_of long_url).

(** The candidates as the specification words them: attempt 0 hashes the
    URL, a retry hashes the URL followed by its own attempt number. *)
Definition spec_candidate (long_url : string) (attempt : nat) : string :=
  code_of (if Nat.eqb attempt 0 then long_url
           else (long_url ++ PyStr.str attempt)%string).

Definition spec_candidates (long_url : string) : list string :=
  map (spec_candidate long_url) (seq 0 max_attempts).

(** The answer of a successful [POST /shorten]. *)
Definition created (short_code long_url : string) : Response :=
  jsonify [("short_code", JStr short_code);
           ("short_url", JStr (base_url ++ short_code)%string);
           ("long_url", JStr long_url)] 201.

(** The row a successful [POST /shorten] adds. *)
Definition new_row (s : Db.Store) (env : Env) (short_code long_url : string)
  : Db.UrlRecord :=
  Db.MkUrlRecord (Db.next_id s) short_code long_url (current_timestamp env).

Definition valid_url (url : string) : bool :=
  PyStr.startswith_any ["http://"; "https://"] url.

Definition codes (s : Db.Store) : list string := map Db.short_code s.

(** An error answer: a JSON object with the single member [error]. *)
Definition is_error (r : Response) (code : nat) : Prop :=
  exists msg : string, r = jsonify [("error", JStr msg)] code.

(** The short code a response announces: [short_code] of a 201 answer. *)
Definition issued_code (r : Response) : option string :=
  if Nat.eqb (status r) 201 then
    match payload r with
    | Json (JObj d) =>
        match dict_get "short_code" d with
        | Some (JStr (Str c)) => Some c
        | _ => None
        end
    | _ => None
    end
  else None.

(** Requests served one after the other, each with what it finds outside
    the process. *)
Fixpoint serve (reqs : list (Env * Request)) (w : World)
  : list Response * World :=
  match reqs with
  | [] => ([], w)
  | (env, req) :: rest =>
      let '(r, w1) := handle env req w in
      let '(rs, w2) := serve rest w1 in
      (r :: rs, w2)
  end.

(** The codes announced by a run of responses, oldest first. *)
Fixpoint issued (rs : list Response) : list string :=
  match rs with
  | [] => []
  | r :: rs' =>
      match issued_code r with
      | Some c => c :: issued rs'
      | None => issued rs'
      end
  end.

Definition not_found : Response :=
  jsonify [("error", JStr "Short URL not found")] 404.

Definition exhausted : Response :=
  jsonify [("error", JStr "Failed to generate unique short code")] 500.

(** The allocator as the specification words it: the handler takes the
    first free one of [spec_candidates]. *)
Definition allocator_as_worded : Prop :=
  forall (env : Env) (d : list (string * json)) (url : string) (w : World),
    dict_get "url" d = Some (JStr url) ->
    valid_url url = true ->
    fst (shorten_url env (Ok (JObj d)) w)
    = match first_free (db w) (spec_candidates url) with
      | Some c => created c url
      | None => exhausted
      end.

(** Row [a] may stand before row [b] in a listing, newest first. *)
Definition newer_or_same (a b : Db.UrlRecord) : Prop :=
  String.leb (Db.created_at b) (Db.created_at a) = true.

Definition strictly_newer (a b : Db.UrlRecord) : Prop :=
  String.ltb (Db.created_at b) (Db.created_at a) = true.

(** The same request to shorten, once for each of [envs]. *)
Definition repeated (body : result json) (envs : list Env)
  : list (Env * Request) :=
  map (fun e => (e, PostShorten body)) envs.

(** The clock readings of SQLite that a run of requests meets. *)
Definition timestamps (reqs : list (Env * Request)) : list string :=
  map (fun er => current_timestamp (fst er)) reqs.

(** Row [a] was created no later, or earlier, than row [b]. *)
Definition older_or_same (a b : Db.UrlRecord) : Prop :=
  String.leb (Db.created_at a) (Db.created_at b) = true.

Definition strictly_older (a b : Db.UrlRecord) : Prop :=
  String.ltb (Db.created_at a) (Db.created_at b) = true.

(** One clock reading is no later than the next, as texts. *)
Definition clock_le (a b : string) : Prop := String.leb a b = true.

(** The rows that hold [url]. *)
Definition rows_of (url : string) (s : Db.Store) : list Db.UrlRecord :=
  filter (fun r => (Db.long_url r =? url)%string) s.

(** How many characters [combined[:n]] keeps of the 35 of [combined]. *)
Definition kept (n : Z) : Z :=
  if (0 <=? n)%Z then (if (n <=? 35)%Z then n else 35)
  else Z.max 0 (35 + n).

(** A generator whose every draw picks index [k]. *)
Definition rng_const (k : nat) : Rng := MkRng (fun _ => k) 0.

(** ** Sample runs *)

Definition world0 : World := MkWorld [] rng0.

(** [n] requests to shorten one URL, all within one second. *)
Definition same_url_runs (n : nat) : list (Env * Request) :=
  repeat (env0, PostShorten (post "http://a")) n.

Definition world_after (n : nat) : World :=
  snd (serve (same_url_runs n) world0).

(** A url that passes validation and holds a line feed. *)
Definition newline_url : string := ("http://a" ++ nl ++ "b")%string.

Definition world_newline : World :=
  snd (shorten_url env0 (post newline_url) world0).

(** * Properties *)

Example md5_empty : MD5.hexdigest "" = "d41d8cd98f00b204e9800998ecf8427e".
Proof. vm_compute. reflexivity. Qed.

Example md5_abc : MD5.hexdigest "abc" = "900150983cd24fb0d6963f7d28e17f72".
Proof. vm_compute. reflexivity. Qed.

Example md5_two_blocks :
  MD5.hexdigest
    "aaaaaaaaaaaaaaaaaaaaaaaaaaaaaaaaaaaaaaaaaaaaaaaaaaaaaaaaaaaaaaaa"
  = "014842d480b571495a4a0363793f7367".
Proof. vm_compute. reflexivity. Qed.

Example generate_short_code_ex :
  fst (generate_short_code "http://a" default_length rng0) = Ok "82795f".
Proof. vm_compute. reflexivity. Qed.

Example shorten_ex :
  fst (shorten_url env0 (post "http://a") (MkWorld [] rng0))
  = jsonify [("short_code", JStr "82795f");
             ("short_url", JStr "http://localhost:5000/82795f");
             ("long_url", JStr "http://a")] 201.
Proof. vm_compute. reflexivity. Qed.

Arguments MD5.hexdigest : simpl never.
Arguments code_of : simpl never.

(** ** Strings *)

Section StringFacts.

Lemma length_string_of_list_ascii (l : list ascii) :
  String.length (string_of_list_ascii l) = List.length l.
Proof. induction l as [|c l IH]; simpl; congruence. Qed.

Lemma take_append (n : nat) (a b : string) :
  n <= String.length a ->
  substring 0 n (a ++ b) = substring 0 n a.
Proof.
  revert n.
  induction a as [|c a IH]; intros n Hn; simpl in *.
  - assert (n = 0) by lia. subst n. destruct b; reflexivity.
  - destruct n as [|n]; [reflexivity|].
    simpl. f_equal. apply IH. lia.
Qed.

Lemma take_length (n : nat) (a : string) :
  String.length (substring 0 n a) = Nat.min n (String.length a).
Proof. revert n. induction a as [|c a IH]; intros [|n]; simpl; auto. Qed.

Lemma take_chars (P : ascii -> Prop) (n : nat) (a : string) :
  Forall P (list_ascii_of_string a) ->
  Forall P (list_ascii_of_string (substring 0 n a)).
Proof.
  revert n.
  induction a as [|c a IH]; intros n Ha; simpl in *.
  - destruct n; constructor.
  - destruct n as [|n]; [constructor|].
    inversion Ha; subst. simpl. constructor; auto.
Qed.

Lemma slice_to_nonneg (n : Z) (a : string) :
  (0 <= n)%Z -> PyStr.slice_to n a = substring 0 (Z.to_nat n) a.
Proof.
  intros Hn. unfold PyStr.slice_to.
  destruct (Z.leb_spec 0 n); [reflexivity | lia].
Qed.

Lemma slice_to_append (n : Z) (a b : string) :
  (0 <= n <= Z.of_nat (String.length a))%Z ->
  PyStr.slice_to n (a ++ b) = PyStr.slice_to n a.
Proof.
  intros Hn. rewrite !slice_to_nonneg by lia. apply take_append. lia.
Qed.

Lemma slice_to_length (n : Z) (a : string) :
  (0 <= n <= Z.of_nat (String.length a))%Z ->
  String.length (PyStr.slice_to n a) = Z.to_nat n.
Proof.
  intros Hn. rewrite slice_to_nonneg, take_length by lia. lia.
Qed.

Lemma slice_to_chars (P : ascii -> Prop) (n : Z) (a : string) :
  Forall P (list_ascii_of_string a) ->
  Forall P (list_ascii_of_string (PyStr.slice_to n a)).
Proof.
  intros Ha. unfold PyStr.slice_to.
  destruct (0 <=? n)%Z; apply take_chars; exact Ha.
Qed.

End StringFacts.

(** ** The digest *)

Section DigestFacts.

Lemma le_bytes_length (n : nat) (x : Z) :
  List.length (MD5.le_bytes n x) = n.
Proof. revert x. induction n; intros x; simpl; auto. Qed.

Lemma digest_length (msg : list Z) : List.length (MD5.digest msg) = 16.
Proof.
  unfold MD5.digest. cbv zeta.
  rewrite !length_app, !le_bytes_length. reflexivity.
Qed.

Lemma hex_digit_lower (n : Z) : is_lower_hex (MD5.hex_digit n) = true.
Proof.
  unfold MD5.hex_digit.
  destruct (nth_in_or_default (Z.to_nat n) MD5.hex_digits "0"%char)
    as [Hin | ->]; [|reflexivity].
  revert Hin. generalize (nth (Z.to_nat n) MD5.hex_digits "0"%char).
  intros c Hin. simpl in Hin.
  repeat (destruct Hin as [<- | Hin]; [reflexivity|]). contradiction.
Qed.

Lemma hexdigest_length (s : string) :
  String.length (MD5.hexdigest s) = 32.
Proof.
  unfold MD5.hexdigest. rewrite length_string_of_list_ascii.
  assert (H : forall l, List.length (flat_map MD5.hex_of_byte l)
                        = 2 * List.length l).
  { induction l as [|b l IH]; simpl; [reflexivity | lia]. }
  rewrite H, digest_length. reflexivity.
Qed.

Lemma hexdigest_chars (s : string) :
  Forall (fun c => is_lower_hex c = true)
         (list_ascii_of_string (MD5.hexdigest s)).
Proof.
  unfold MD5.hexdigest. rewrite list_ascii_of_string_of_list_ascii.
  induction (MD5.digest (MD5.bytes_of_string s)) as [|b l IH]; simpl.
  - constructor.
  - constructor; [apply hex_digit_lower|].
    constructor; [apply hex_digit_lower | exact IH].
Qed.

End DigestFacts.

(** ** The generator *)

Lemma choices_rng (pop : list ascii) (k : nat) (g : Rng) :
  snd (PyRandom.choices pop k g) = MkRng (draws g) (k + used g).
Proof.
  revert g. induction k as [|k IH]; intros g.
  - destruct g; reflexivity.
  - cbn [PyRandom.choices PyRandom.choice].
    specialize (IH (MkRng (draws g) (S (used g)))).
    destruct (PyRandom.choices pop k _) as [cs g2].
    simpl in *. rewrite IH. f_equal. lia.
Qed.

Lemma generate_short_code_eq (url : string) (g : Rng) :
  generate_short_code url default_length g
  = (Ok (code_of url), MkRng (draws g) (3 + used g)).
Proof.
  unfold generate_short_code, code_of. cbn [PyStr.encode].
  pose proof (choices_rng PyRandom.alphabet 3 g) as Hg.
  destruct (PyRandom.choices PyRandom.alphabet 3 g) as [cs g'].
  simpl in Hg. subst g'. apply f_equal2; [|reflexivity].
  apply (f_equal Ok). apply slice_to_append.
  rewrite hexdigest_length. unfold default_length. lia.
Qed.

(** C9: at the default length the generator returns the first six characters
    of the MD5 hex digest of its argument, six lowercase hexadecimal digits,
    whatever the random module draws: the 32 characters of the digest fill
    the slice and the three random characters after them are cut off, so two
    runs on one argument agree.  (A str that [encode] refuses has no digest:
    two runs on it agree as well, both raise the same error.) *)
Theorem generate_short_code_deterministic :
  forall (url : string) (g : Rng),
    fst (generate_short_code url default_length g)
    = Ok (PyStr.slice_to 6 (MD5.hexdigest url))
    /\ String.length (MD5.hexdigest url) = 32
    /\ String.length (PyStr.slice_to 6 (MD5.hexdigest url)) = 6
    /\ Forall (fun c => is_lower_hex c = true)
         (list_ascii_of_string (PyStr.slice_to 6 (MD5.hexdigest url)))
    /\ (forall g' : Rng,
          fst (generate_short_code url default_length g')
          = fst (generate_short_code url default_length g))
    /\ (forall (before after : string) (k : nat) (g1 g2 : Rng),
          fst (generate_short_code (Surr before k after) default_length g1)
          = fst (generate_short_code (Surr before k after) default_length g2)).
Proof.
  intros url g. rewrite generate_short_code_eq. cbn [fst].
  unfold code_of, default_length.
  split; [reflexivity|]. split; [|split; [|split; [|split]]].
  - apply hexdigest_length.
  - rewrite slice_to_length; [reflexivity|]. rewrite hexdigest_length. lia.
  - apply slice_to_chars, hexdigest_chars.
  - intros g'. rewrite generate_short_code_eq. reflexivity.
  - intros before after k g1 g2. reflexivity.
Qed.

(** ** The table *)

Section StoreFacts.

Lemma has_code_In (s : Db.Store) (code : string) :
  existsb (Db.has_code code) s = true <-> In code (codes s).
Proof.
  unfold codes, Db.has_code. rewrite existsb_exists, in_map_iff.
  split; intros [r [H1 H2]]; exists r.
  - apply String.eqb_eq in H2. auto.
  - split; [auto|]. apply String.eqb_eq. auto.
Qed.

Lemma find_none_existsb {A} (f : A -> bool) (l : list A) :
  find f l = None <-> existsb f l = false.
Proof.
  induction l as [|a l IH]; simpl; [tauto|].
  destruct (f a); simpl; [split; discriminate | exact IH].
Qed.

Lemma select_id_none (s : Db.Store) (code : string) :
  Db.select_id s code = None <-> existsb (Db.has_code code) s = false.
Proof.
  unfold Db.select_id. rewrite <- find_none_existsb.
  destruct (find _ s); simpl; split; congruence.
Qed.

Lemma first_free_absent (s : Db.Store) (cands : list string) (c : string) :
  first_free s cands = Some c ->
  In c cands /\ existsb (Db.has_code c) s = false.
Proof.
  unfold first_free. intros H. apply find_some in H.
  destruct H as [H1 H2]. split; [exact H1|].
  apply negb_true_iff. exact H2.
Qed.

Lemma first_free_none (s : Db.Store) (cands : list string) :
  first_free s cands = None <->
  (forall c, In c cands -> In c (codes s)).
Proof.
  unfold first_free. rewrite find_none_existsb. split.
  - intros H c Hc. apply has_code_In.
    destruct (existsb (Db.has_code c) s) eqn:E; [reflexivity|].
    assert (Hx : existsb (fun c => negb (existsb (Db.has_code c) s)) cands
                 = true).
    { apply existsb_exists. exists c. rewrite E. auto. }
    congruence.
  - intros H.
    destruct (existsb _ cands) eqn:E; [|reflexivity].
    apply existsb_exists in E. destruct E as [c [Hc Hn]].
    apply H, has_code_In in Hc. rewrite Hc in Hn. discriminate.
Qed.

Lemma insert_fresh (s : Db.Store) (code url now : string) :
  existsb (Db.has_code code) s = false ->
  Db.insert s code url now
  = Ok (s ++ [Db.MkUrlRecord (Db.next_id s) code url now]).
Proof. unfold Db.insert. intros ->. reflexivity. Qed.

Lemma insert_ok (s s' : Db.Store) (code url now : string) :
  Db.insert s code url now = Ok s' ->
  existsb (Db.has_code code) s = false
  /\ s' = s ++ [Db.MkUrlRecord (Db.next_id s) code url now].
Proof.
  unfold Db.insert. destruct (existsb _ s); [discriminate|].
  intros H. inversion H. auto.
Qed.


Lemma codes_app (s : Db.Store) (r : Db.UrlRecord) :
  codes (s ++ [r]) = codes s ++ [Db.short_code r].
Proof. unfold codes. rewrite map_app. reflexivity. Qed.

Lemma NoDup_snoc {A} (l : list A) (a : A) :
  NoDup l -> ~ In a l -> NoDup (l ++ [a]).
Proof.
  intros Hl Ha. apply NoDup_rev in Hl.
  rewrite <- (rev_involutive (l ++ [a])). apply NoDup_rev.
  rewrite rev_app_distr. simpl. constructor; [|exact Hl].
  rewrite <- in_rev. exact Ha.
Qed.

End StoreFacts.

(** ** The collision loop *)

Lemma examined_cons (url : string) (a : nat) (rest : list nat) (c : string) :
  examined url (a :: rest) c
  = c :: examined url rest (code_of (url ++ PyStr.str a)).
Proof. reflexivity. Qed.

Lemma candidates_eq (url : string) :
  candidates url
  = [code_of url; code_of (url ++ "0"); code_of (url ++ "1");
     code_of (url ++ "2"); code_of (url ++ "3")].
Proof. reflexivity. Qed.

Lemma collision_loop_spec (url : string) (attempts : list nat) :
  forall (c : string) (w : World),
  exists g' : Rng,
    collision_loop url attempts c w
    = (Ok (first_free (db w) (examined url attempts c)), MkWorld (db w) g').
Proof.
  induction attempts as [|a rest IH]; intros c w.
  - exists (rng w). destruct w. reflexivity.
  - rewrite examined_cons.
    cbn [collision_loop]. unfold bind at 1. unfold read_db at 1.
    unfold first_free. cbn [find].
    destruct (Db.select_id (db w) c) as [i|] eqn:E.
    + assert (Hc : existsb (Db.has_code c) (db w) = true).
      { destruct (existsb _ (db w)) eqn:E'; [reflexivity|].
        apply select_id_none in E'. congruence. }
      rewrite Hc. cbn [negb].
      unfold bind at 1. unfold with_rng at 1. cbn [PyStr.add].
      rewrite generate_short_code_eq.
      destruct (IH (code_of (url ++ PyStr.str a))
                   (MkWorld (db w) (MkRng (draws (rng w)) (3 + used (rng w)))))
        as [g' Hg'].
      exists g'. exact Hg'.
    + apply select_id_none in E. rewrite E. cbn [negb].
      exists (rng w). destruct w. reflexivity.
Qed.

(** ** POST /shorten *)

Lemma dict_get_key (k : string) (d : list (string * json)) (v : json) :
  dict_get k d = Some v ->
  existsb (fun kv => (fst kv =? k)%string) d = true.
Proof.
  induction d as [|[k' v'] d IH]; simpl; [discriminate|].
  destruct (k' =? k)%string; simpl; auto.
Qed.

Lemma dict_key_get (k : string) (d : list (string * json)) :
  existsb (fun kv => (fst kv =? k)%string) d = true ->
  exists v, dict_get k d = Some v.
Proof.
  induction d as [|[k' v'] d IH]; simpl; [discriminate|].
  destruct (k' =? k)%string; simpl; eauto.
Qed.

(** A request that passes validation: what the handler answers and what it
    leaves in the table. *)
Lemma shorten_url_valid (env : Env) (d : list (string * json))
  (url : string) (w : World) :
  dict_get "url" d = Some (JStr url) ->
  valid_url url = true ->
  exists g' : Rng,
    shorten_url env (Ok (JObj d)) w
    = match first_free (db w) (candidates url) with
      | Some c =>
          (created c url, MkWorld (db w ++ [new_row (db w) env c url]) g')
      | None =>
          (jsonify [("error", JStr "Failed to generate unique short code")]
                   500,
           MkWorld (db w) g')
      end.
Proof.
  intros Hd Hv.
  unfold shorten_url, try_except, shorten_url_try.
  unfold bind at 1. unfold lift at 1.
  assert (Ht : Py.truthy (JObj d) = true).
  { destruct d; [discriminate | reflexivity]. }
  rewrite Ht. cbn [negb].
  unfold bind at 1. unfold bind at 1. unfold lift at 1.
  cbn [Py.contains]. rewrite (dict_get_key _ _ _ Hd). unfold ret at 1.
  cbn [negb].
  unfold bind at 1. unfold lift at 1. cbn [Py.getitem]. rewrite Hd.
  cbn [PyStr.bytes]. fold (valid_url url). rewrite Hv. cbn [negb].
  unfold bind at 1. unfold with_rng at 1. rewrite generate_short_code_eq.
  unfold bind at 1.
  destruct (collision_loop_spec url (seq 0 max_attempts) (code_of url)
              (MkWorld (db w) (MkRng (draws (rng w)) (3 + used (rng w)))))
    as [g' Hg'].
  rewrite Hg'. cbn [db]. fold (candidates url).
  exists g'.
  destruct (first_free (db w) (candidates url)) as [c|] eqn:E.
  - apply first_free_absent in E. destruct E as [_ E].
    unfold bind at 1. unfold lift at 1. cbn [Db.bind PyStr.encode].
    unfold bind at 1. unfold write_db at 1. cbn [db rng].
    rewrite (insert_fresh _ _ _ _ E). reflexivity.
  - reflexivity.
Qed.

Ltac run_handler :=
  unfold shorten_url, try_except, shorten_url_try, bind, lift, ret, raise,
    error_500;
  cbn [Py.truthy Py.contains Py.getitem negb fst snd db].

Ltac answer_error code :=
  left; exists code; split; [auto|];
  split; [eexists; reflexivity | reflexivity].

(** Every [POST /shorten] either answers an error, 400 or 500, and leaves the
    table as it was, or answers 201 with a code that no row carried and adds
    one row for it. *)
Lemma shorten_url_cases (env : Env) (body : result json) (w : World) :
  (exists code : nat,
      (code = 400 \/ code = 500)
      /\ is_error (fst (shorten_url env body w)) code
      /\ db (snd (shorten_url env body w)) = db w)
  \/ (exists (d : list (string * json)) (url c : string),
         body = Ok (JObj d)
         /\ dict_get "url" d = Some (JStr url)
         /\ valid_url url = true
         /\ first_free (db w) (candidates url) = Some c
         /\ fst (shorten_url env body w) = created c url
         /\ db (snd (shorten_url env body w))
            = db w ++ [new_row (db w) env c url]).
Proof.
  destruct body as [data|e]; [|run_handler; answer_error 500].
  destruct data as [ |b|n|q|s|l|d].
  - run_handler. answer_error 400.
  - run_handler. destruct b; cbn [negb]; [answer_error 500 | answer_error 400].
  - run_handler. destruct (n =? 0)%Z; cbn [negb];
      [answer_error 400 | answer_error 500].
  - run_handler. destruct (Qeq_bool q 0); cbn [negb];
      [answer_error 400 | answer_error 500].
  - run_handler. destruct (PyStr.bytes s =? "")%string; cbn [negb];
      [answer_error 400|].
    destruct (PyStr.contains "url" (PyStr.bytes s)); cbn [negb];
      [answer_error 500 | answer_error 400].
  - run_handler. destruct (Nat.eqb (List.length l) 0); cbn [negb];
      [answer_error 400|].
    destruct (existsb (Py.str_eq "url") l); cbn [negb];
      [answer_error 500 | answer_error 400].
  - destruct (dict_get "url" d) as [v|] eqn:Hd.
    + assert (Ht : Nat.eqb (List.length d) 0 = false)
        by (destruct d; [discriminate | reflexivity]).
      destruct v as [ |b|n|q|p|l|d'];
        try (run_handler;
             rewrite Ht, (dict_get_key _ _ _ Hd), Hd; cbn [negb Py.type_name];
             answer_error 500).
      destruct p as [url|before k after].
      * destruct (valid_url url) eqn:Hv.
        -- destruct (shorten_url_valid env d url w Hd Hv) as [g' Hg'].
           rewrite Hg'.
           destruct (first_free (db w) (candidates url)) as [c|] eqn:E.
           ++ right. exists d, url, c. cbn [fst snd db]. auto 10.
           ++ cbn [fst snd db]. answer_error 500.
        -- run_handler.
           rewrite Ht, (dict_get_key _ _ _ Hd), Hd. cbn [negb PyStr.bytes].
           fold (valid_url url). rewrite Hv. cbn [negb]. answer_error 400.
      * run_handler.
        rewrite Ht, (dict_get_key _ _ _ Hd), Hd. cbn [negb].
        destruct (PyStr.startswith_any _ _); cbn [negb];
          [|answer_error 400].
        unfold with_rng, generate_short_code. cbn [PyStr.encode fst snd db].
        answer_error 500.
    + run_handler.
      destruct (Nat.eqb (List.length d) 0); cbn [negb]; [answer_error 400|].
      destruct (existsb _ d) eqn:Hk; cbn [negb]; [|answer_error 400].
      apply dict_key_get in Hk. destruct Hk as [v Hk]. congruence.
Qed.

Lemma issued_code_created (c url : string) :
  issued_code (created c url) = Some c.
Proof. reflexivity. Qed.

Lemma issued_code_error (r : Response) (code : nat) :
  is_error r code -> issued_code r = None.
Proof.
  intros [msg ->]. unfold issued_code, jsonify. cbn [status payload].
  destruct (Nat.eqb code 201); reflexivity.
Qed.

(** A [POST /shorten] that announces a code went through validation and
    took the first free candidate. *)
Lemma shorten_url_issued (env : Env) (body : result json) (w : World)
  (c : string) :
  issued_code (fst (shorten_url env body w)) = Some c ->
  exists (d : list (string * json)) (url : string),
    body = Ok (JObj d)
    /\ dict_get "url" d = Some (JStr url)
    /\ valid_url url = true
    /\ first_free (db w) (candidates url) = Some c
    /\ fst (shorten_url env body w) = created c url
    /\ db (snd (shorten_url env body w)) = db w ++ [new_row (db w) env c url].
Proof.
  intros Hc.
  destruct (shorten_url_cases env body w)
    as [[code [_ [Herr _]]] | [d [url [c' H]]]].
  - rewrite (issued_code_error _ _ Herr) in Hc. discriminate.
  - destruct H as [Hb [Hd [Hv [Hf [Hr Hs]]]]].
    rewrite Hr, issued_code_created in Hc. inversion Hc; subst c'.
    exists d, url. auto 10.
Qed.

(** ** The read-only handlers *)

Lemma redirect_url_eq (code : string) (w : World) :
  redirect_url code w
  = (match Db.select_long_url (db w) code with
     | Some url =>
         match Werkzeug.redirect url with
         | Ok r => r
         | Raise e => error_500 e
         end
     | None => not_found
     end, w).
Proof.
  unfold redirect_url, try_except, bind, read_db, ret, lift.
  destruct (Db.select_long_url (db w) code) as [url|]; [|reflexivity].
  destruct (Werkzeug.redirect url); reflexivity.
Qed.

Lemma handle_db (env : Env) (req : Request) (w : World) :
  db (snd (handle env req w)) = db w
  \/ exists (body : result json) (c url : string),
       req = PostShorten body
       /\ first_free (db w) (candidates url) = Some c
       /\ fst (handle env req w) = created c url
       /\ db (snd (handle env req w)) = db w ++ [new_row (db w) env c url].
Proof.
  destruct req as [ | |body|code| | ]; cbn [handle];
    try (left; reflexivity).
  - destruct (shorten_url_cases env body w)
      as [[code [_ [_ Hs]]] | [d [url [c H]]]].
    + left. exact Hs.
    + right. exists body, c, url. intuition.
  - left. rewrite redirect_url_eq. reflexivity.
Qed.

Lemma handle_issued (env : Env) (req : Request) (w : World) :
  codes (db (snd (handle env req w)))
  = codes (db w) ++ issued [fst (handle env req w)].
Proof.
  destruct req as [ | |body|code| | ]; cbn [handle issued];
    try (cbn; rewrite app_nil_r; reflexivity).
  - unfold index. cbn [fst snd].
    destruct (index_html env) as [t|e]; [|destruct e];
      cbn; rewrite app_nil_r; reflexivity.
  - destruct (shorten_url_cases env body w)
      as [[code [_ [Herr Hs]]] | [d [url [c H]]]].
    + rewrite (issued_code_error _ _ Herr), Hs, app_nil_r. reflexivity.
    + destruct H as [_ [_ [_ [_ [Hr Hs]]]]].
      rewrite Hr, Hs, issued_code_created, codes_app. reflexivity.
  - rewrite redirect_url_eq. cbn [fst snd].
    destruct (Db.select_long_url (db w) code) as [u|];
      [unfold Werkzeug.redirect; destruct (Werkzeug.has_newline u)|];
      cbn; rewrite app_nil_r; reflexivity.
Qed.

Lemma issued_cons (r : Response) (rs : list Response) :
  issued (r :: rs) = issued [r] ++ issued rs.
Proof. cbn [issued]. destruct (issued_code r); reflexivity. Qed.

Lemma serve_issued (reqs : list (Env * Request)) :
  forall w : World,
    codes (db (snd (serve reqs w)))
    = codes (db w) ++ issued (fst (serve reqs w)).
Proof.
  induction reqs as [|[env req] rest IH]; intros w; cbn [serve].
  - cbn. rewrite app_nil_r. reflexivity.
  - pose proof (handle_issued env req w) as Hh.
    destruct (handle env req w) as [r w1].
    specialize (IH w1). destruct (serve rest w1) as [rs w2].
    cbn [fst snd] in *. rewrite (issued_cons r rs), IH, Hh, app_assoc.
    reflexivity.
Qed.

Lemma handle_unique (env : Env) (req : Request) (w : World) :
  NoDup (codes (db w)) -> NoDup (codes (db (snd (handle env req w)))).
Proof.
  intros Hw.
  destruct (handle_db env req w) as [-> | [body [c [url H]]]]; [exact Hw|].
  destruct H as [_ [Hf [_ ->]]].
  rewrite codes_app. cbn [new_row Db.short_code].
  apply NoDup_snoc; [exact Hw|].
  apply first_free_absent in Hf. destruct Hf as [_ Hf].
  rewrite <- has_code_In. congruence.
Qed.

Lemma reachable_unique (w : World) : reachable w -> NoDup (codes (db w)).
Proof.
  induction 1 as [g | env req w _ IH].
  - constructor.
  - apply handle_unique. exact IH.
Qed.

Lemma serve_reachable (reqs : list (Env * Request)) :
  forall w : World, reachable w -> reachable (snd (serve reqs w)).
Proof.
  induction reqs as [|[env req] rest IH]; intros w Hw; cbn [serve].
  - exact Hw.
  - pose proof (reach_step env req w Hw) as H1.
    destruct (handle env req w) as [r w1].
    specialize (IH w1 H1). destruct (serve rest w1) as [rs w2].
    exact IH.
Qed.

Lemma insert_unique (s s' : Db.Store) (code url now : string) :
  NoDup (codes s) -> Db.insert s code url now = Ok s' -> NoDup (codes s').
Proof.
  intros Hs Hi. apply insert_ok in Hi. destruct Hi as [Hc ->].
  rewrite codes_app. apply NoDup_snoc; [exact Hs|].
  cbn [Db.short_code]. rewrite <- has_code_In. congruence.
Qed.

Lemma first_free_split (s : Db.Store) (pre post : list string) (c : string) :
  (forall x, In x pre -> In x (codes s)) ->
  ~ In c (codes s) ->
  first_free s (pre ++ c :: post) = Some c.
Proof.
  intros Hpre Hc. unfold first_free.
  induction pre as [|x pre IH]; cbn [app find].
  - rewrite <- has_code_In in Hc. apply not_true_is_false in Hc.
    rewrite Hc. reflexivity.
  - assert (Hx : existsb (Db.has_code x) s = true).
    { apply has_code_In, Hpre. left. reflexivity. }
    rewrite Hx. cbn [negb]. apply IH.
    intros y Hy. apply Hpre. right. exact Hy.
Qed.

Lemma next_id_above (s : Db.Store) (r : Db.UrlRecord) :
  In r s -> (Db.id r < Db.next_id s)%Z.
Proof.
  unfold Db.next_id. induction s as [|a s IH]; intros Hr; [contradiction|].
  cbn [map fold_right]. destruct Hr as [-> | Hr]; [lia|].
  specialize (IH Hr). lia.
Qed.

(** Shortening one url over and over: each request takes the next candidate
    until none is left, and the request after that fails without a write. *)
Lemma repeated_shorten (d : list (string * json)) (url : string) :
  dict_get "url" d = Some (JStr url) ->
  valid_url url = true ->
  forall (rest pre : list string) (envs : list Env) (last : Env) (w : World),
    candidates url = pre ++ rest ->
    NoDup rest ->
    (forall c, In c pre -> In c (codes (db w))) ->
    (forall c, In c rest -> ~ In c (codes (db w))) ->
    List.length envs = List.length rest ->
    fst (serve (repeated (Ok (JObj d)) (envs ++ [last])) w)
    = map (fun c => created c url) rest ++ [exhausted]
    /\ codes (db (snd (serve (repeated (Ok (JObj d)) (envs ++ [last])) w)))
       = codes (db w) ++ rest
    /\ db (snd (serve (repeated (Ok (JObj d)) (envs ++ [last])) w))
       = db (snd (serve (repeated (Ok (JObj d)) envs) w)).
Proof.
  intros Hd Hv.
  induction rest as [|c rest IH]; intros pre envs last w Hc Hnd Hpre Hrest Hlen.
  - destruct envs; [|discriminate].
    rewrite app_nil_r in Hc. rewrite <- Hc in Hpre.
    cbn [app repeated map serve handle].
    destruct (shorten_url_valid last d url w Hd Hv) as [g' Hg'].
    apply first_free_none in Hpre. rewrite Hpre in Hg'. rewrite Hg'.
    cbn. rewrite app_nil_r. auto.
  - destruct envs as [|e envs]; [discriminate|].
    cbn [app repeated map serve handle].
    destruct (shorten_url_valid e d url w Hd Hv) as [g' Hg'].
    rewrite Hc, (first_free_split (db w) pre rest c Hpre) in Hg'
      by (apply Hrest; left; reflexivity).
    rewrite Hg'.
    inversion Hnd as [|c' rest' Hnotin Hnd']; subst.
    specialize (IH (pre ++ [c]) envs last
                   (MkWorld (db w ++ [new_row (db w) e c url]) g')).
    destruct IH as [IH1 [IH2 IH3]].
    + rewrite <- app_assoc. exact Hc.
    + exact Hnd'.
    + intros x Hx. cbn [db]. rewrite codes_app. apply in_or_app.
      apply in_app_or in Hx. destruct Hx as [Hx | [<- | []]].
      * left. apply Hpre. exact Hx.
      * right. left. reflexivity.
    + intros x Hx Hin. cbn [db] in Hin. rewrite codes_app in Hin.
      apply in_app_or in Hin. destruct Hin as [Hin | [<- | []]].
      * apply (Hrest x); [right; exact Hx | exact Hin].
      * apply Hnotin. exact Hx.
    + cbn in Hlen. lia.
    + fold (repeated (Ok (JObj d)) (envs ++ [last])) in *.
      fold (repeated (Ok (JObj d)) envs) in *.
      destruct (serve (repeated (Ok (JObj d)) (envs ++ [last])) _)
        as [rs w2].
      destruct (serve (repeated (Ok (JObj d)) envs) _) as [rs' w2'].
      cbn [fst snd db] in *.
      rewrite IH1, IH2, IH3, codes_app, <- app_assoc. auto.
Qed.


(** ** Ordering by creation time *)

Section OrderFacts.

Lemma compare_lt_trans (a b c : string) :
  String.compare a b = Lt -> String.compare b c = Lt ->
  String.compare a c = Lt.
Proof.
  revert b c.
  induction a as [|x a IH]; intros [|y b] [|z c]; simpl; try congruence.
  destruct (Ascii.compare x y) eqn:Exy; try discriminate;
    destruct (Ascii.compare y z) eqn:Eyz; try discriminate.
  - pose proof (Ascii.compare_eq_iff _ _ Exy). subst y.
    rewrite Eyz. apply IH.
  - pose proof (Ascii.compare_eq_iff _ _ Exy). subst y.
    rewrite Eyz. reflexivity.
  - pose proof (Ascii.compare_eq_iff _ _ Eyz). subst z.
    rewrite Exy. reflexivity.
  - intros _ _. unfold Ascii.compare in *.
    rewrite N.compare_lt_iff in *.
    assert (H : (N_of_ascii x < N_of_ascii z)%N) by lia.
    apply N.compare_lt_iff in H. rewrite H. reflexivity.
Qed.

Lemma leb_trans (a b c : string) :
  String.leb a b = true -> String.leb b c = true -> String.leb a c = true.
Proof.
  unfold String.leb.
  destruct (String.compare a b) eqn:Eab; try discriminate;
    destruct (String.compare b c) eqn:Ebc; try discriminate; intros _ _.
  - apply String.compare_eq_iff in Eab. subst. rewrite Ebc. reflexivity.
  - apply String.compare_eq_iff in Eab. subst. rewrite Ebc. reflexivity.
  - apply String.compare_eq_iff in Ebc. subst. rewrite Eab. reflexivity.
  - rewrite (compare_lt_trans a b c Eab Ebc). reflexivity.
Qed.

Lemma place_perm (r : Db.UrlRecord) (l : list Db.UrlRecord) :
  Permutation (Db.place r l) (r :: l).
Proof.
  induction l as [|a l IH]; cbn [Db.place]; [reflexivity|].
  destruct (String.leb _ _); [reflexivity|].
  rewrite IH. apply perm_swap.
Qed.

Lemma place_sorted (r : Db.UrlRecord) (l : list Db.UrlRecord) :
  StronglySorted newer_or_same l ->
  StronglySorted newer_or_same (Db.place r l).
Proof.
  induction 1 as [|a l Hl IH Ha]; cbn [Db.place].
  - constructor; constructor.
  - destruct (String.leb (Db.created_at a) (Db.created_at r)) eqn:E.
    + constructor; [constructor; assumption|].
      constructor; [exact E|].
      eapply Forall_impl; [|exact Ha].
      intros b Hb. unfold newer_or_same in *.
      eapply leb_trans; eassumption.
    + constructor; [exact IH|].
      apply (Permutation_Forall (Permutation_sym (place_perm r l))).
      constructor; [|exact Ha].
      unfold newer_or_same.
      destruct (String.leb_total (Db.created_at r) (Db.created_at a));
        congruence.
Qed.

Lemma order_by_perm (s : Db.Store) :
  Permutation (Db.order_by_created_at_desc s) s.
Proof.
  induction s as [|r s IH]; cbn; [constructor|].
  rewrite place_perm. constructor. exact IH.
Qed.

Lemma order_by_sorted (s : Db.Store) :
  StronglySorted newer_or_same (Db.order_by_created_at_desc s).
Proof.
  induction s as [|r s IH]; cbn; [constructor|].
  apply place_sorted. exact IH.
Qed.

Lemma sorted_split (l1 l2 : list Db.UrlRecord) :
  StronglySorted newer_or_same (l1 ++ l2) ->
  StronglySorted newer_or_same l1
  /\ forall a b, In a l1 -> In b l2 -> newer_or_same a b.
Proof.
  induction l1 as [|x l1 IH]; cbn [app]; intros H.
  - split; [constructor|]. intros a b [].
  - inversion H as [|? ? Hs Hx]; subst.
    destruct (IH Hs) as [IH1 IH2]. split.
    + constructor; [exact IH1|].
      rewrite Forall_app in Hx. tauto.
    + intros a b [<- | Ha] Hb.
      * rewrite Forall_forall in Hx. apply Hx, in_or_app. auto.
      * apply IH2; assumption.
Qed.

End OrderFacts.

(** * The claims *)

(** C1: no two rows share a short code.  The property holds of every state
    the service reaches, every request keeps it (a shorten request through
    its check before the insert, the other handlers because they write
    nothing), the table's own UNIQUE constraint keeps it for any insert, and
    a code announced by [POST /shorten] is carried by no row before it: as
    the rows carry exactly the codes announced so far, it differs from every
    code issued earlier. *)
Theorem short_code_unique :
  (forall w : World, reachable w -> NoDup (codes (db w)))
  /\ (forall (env : Env) (req : Request) (w : World),
         NoDup (codes (db w)) -> NoDup (codes (db (snd (handle env req w)))))
  /\ (forall (s s' : Db.Store) (code url now : string),
         NoDup (codes s) -> Db.insert s code url now = Ok s' ->
         NoDup (codes s'))
  /\ (forall (env : Env) (body : result json) (w : World) (c : string),
         issued_code (fst (shorten_url env body w)) = Some c ->
         ~ In c (codes (db w))
         /\ codes (db (snd (shorten_url env body w))) = codes (db w) ++ [c])
  /\ (forall (reqs : list (Env * Request)) (g : Rng),
         issued (fst (serve reqs (MkWorld [] g)))
         = codes (db (snd (serve reqs (MkWorld [] g))))
         /\ NoDup (issued (fst (serve reqs (MkWorld [] g))))).
Proof.
  split; [exact reachable_unique|].
  split; [exact handle_unique|].
  split; [exact insert_unique|].
  split.
  - intros env body w c Hc.
    destruct (shorten_url_issued env body w c Hc)
      as [d [url [_ [_ [_ [Hf [_ Hs]]]]]]].
    split.
    + apply first_free_absent in Hf. destruct Hf as [_ Hf].
      rewrite <- has_code_In. congruence.
    + rewrite Hs, codes_app. reflexivity.
  - intros reqs g.
    pose proof (serve_issued reqs (MkWorld [] g)) as H. cbn in H.
    split; [symmetry; exact H|].
    rewrite <- H. clear H.
    apply reachable_unique, serve_reachable. constructor.
Qed.

Lemma short_code_unique_witness :
  NoDup (codes (db (snd (handle env0 (PostShorten (post "http://a")) world0))))
  /\ ~ In "115ec9" (codes (db (world_after 1))).
Proof.
  destruct short_code_unique as [H1 [_ [_ [H4 _]]]].
  split.
  - apply H1. apply reach_step. apply reach_init.
  - apply (H4 env0 (post "http://a") (world_after 1) "115ec9").
    vm_compute. reflexivity.
Defined.

(** C2, the failing input: a url that holds a line feed passes validation
    and is stored under the code 8a2af6, but the [GET] of that code does not
    redirect to it: [redirect] raises ValueError on the line feed and the
    handler's [except] answers 500 with its text. *)
Theorem redirect_after_shorten_raises :
  valid_url newline_url = true
  /\ fst (shorten_url env0 (post newline_url) world0)
     = created "8a2af6" newline_url
  /\ Db.select_long_url (db world_newline) "8a2af6" = Some newline_url
  /\ redirect_url "8a2af6" world_newline
     = (jsonify
          [("error",
            JStr "Header values must not contain newline characters.")]
          500, world_newline).
Proof. vm_compute. repeat split; reflexivity. Qed.

(** C3: when every code the retry loop looks up is carried by a row, a
    [POST /shorten] of a valid url answers 500 with an error message and the
    table is as it was: no row is inserted. *)
Theorem exhaustion_leaves_store :
  forall (env : Env) (d : list (string * json)) (url : string) (w : World),
    dict_get "url" d = Some (JStr url) ->
    valid_url url = true ->
    (forall c : string, In c (candidates url) -> In c (codes (db w))) ->
    fst (shorten_url env (Ok (JObj d)) w)
    = jsonify [("error", JStr "Failed to generate unique short code")] 500
    /\ db (snd (shorten_url env (Ok (JObj d)) w)) = db w.
Proof.
  intros env d url w Hd Hv Hall.
  destruct (shorten_url_valid env d url w Hd Hv) as [g' Hg'].
  apply first_free_none in Hall. rewrite Hall in Hg'. rewrite Hg'.
  split; reflexivity.
Qed.

Lemma exhaustion_leaves_store_witness :
  fst (shorten_url env0 (post "http://a") (world_after 5))
  = jsonify [("error", JStr "Failed to generate unique short code")] 500
  /\ db (snd (shorten_url env0 (post "http://a") (world_after 5)))
     = db (world_after 5).
Proof.
  apply (exhaustion_leaves_store env0 [("url", JStr "http://a")] "http://a"
           (world_after 5)).
  - reflexivity.
  - reflexivity.
  - vm_compute. tauto.
Defined.

(** C6, the failing input: in the state reached by shortening a url that
    holds a line feed, the code 8a2af6 is carried by a row, yet
    [GET /8a2af6] answers 500 with an error object, not a 302. *)
Theorem present_code_not_redirected :
  reachable world_newline
  /\ In "8a2af6" (codes (db world_newline))
  /\ status (fst (redirect_url "8a2af6" world_newline)) = 500
  /\ is_error (fst (redirect_url "8a2af6" world_newline)) 500.
Proof.
  split.
  - apply (reach_step env0 (PostShorten (post newline_url)) world0).
    apply reach_init.
  - split; [vm_compute; auto|].
    split; [vm_compute; reflexivity|].
    eexists. vm_compute. reflexivity.
Qed.

(** C7: shortening one url twice in a row, both requests succeeding, leaves
    two rows for that url, with two different ids and two different short
    codes; the second request does not reuse the row of the first. *)
Theorem shorten_twice_distinct :
  forall (env1 env2 : Env) (d : list (string * json)) (url : string)
         (w : World) (c1 c2 : string),
    dict_get "url" d = Some (JStr url) ->
    issued_code (fst (shorten_url env1 (Ok (JObj d)) w)) = Some c1 ->
    issued_code
      (fst (shorten_url env2 (Ok (JObj d))
              (snd (shorten_url env1 (Ok (JObj d)) w)))) = Some c2 ->
    c1 <> c2
    /\ exists r1 r2 : Db.UrlRecord,
         db (snd (shorten_url env2 (Ok (JObj d))
                    (snd (shorten_url env1 (Ok (JObj d)) w))))
         = db w ++ [r1; r2]
         /\ Db.short_code r1 = c1 /\ Db.short_code r2 = c2
         /\ Db.long_url r1 = url /\ Db.long_url r2 = url
         /\ Db.id r1 <> Db.id r2.
Proof.
  intros env1 env2 d url w c1 c2 Hd H1 H2.
  destruct (shorten_url_issued _ _ _ _ H1)
    as [d1 [u1 [Hb1 [Hd1 [_ [Hf1 [_ Hs1]]]]]]].
  destruct (shorten_url_issued _ _ _ _ H2)
    as [d2 [u2 [Hb2 [Hd2 [_ [Hf2 [_ Hs2]]]]]]].
  inversion Hb1; subst d1. inversion Hb2; subst d2.
  rewrite Hd in Hd1, Hd2. inversion Hd1; subst u1. inversion Hd2; subst u2.
  apply first_free_absent in Hf2. destruct Hf2 as [_ Hf2].
  rewrite Hs1 in Hf2.
  split.
  - intros ->.
    assert (Hin : In c2 (codes (db w ++ [new_row (db w) env1 c2 url]))).
    { rewrite codes_app. apply in_or_app. right. left. reflexivity. }
    apply has_code_In in Hin. congruence.
  - exists (new_row (db w) env1 c1 url),
           (new_row (db (snd (shorten_url env1 (Ok (JObj d)) w))) env2 c2 url).
    rewrite Hs2. rewrite Hs1 at 1. rewrite <- app_assoc.
    repeat (split; [reflexivity|]).
    cbn [new_row Db.id]. rewrite Hs1.
    pose proof (next_id_above (db w ++ [new_row (db w) env1 c1 url])
                  (new_row (db w) env1 c1 url)) as Hlt.
    cbn [new_row Db.id] in Hlt.
    assert (Hin : In (new_row (db w) env1 c1 url)
                     (db w ++ [new_row (db w) env1 c1 url])).
    { apply in_or_app. right. left. reflexivity. }
    specialize (Hlt Hin). unfold new_row in *. lia.
Qed.

Lemma shorten_twice_distinct_witness :
  "82795f" <> "115ec9"
  /\ exists r1 r2 : Db.UrlRecord,
       db (snd (shorten_url env0 (Ok (JObj [("url", JStr "http://a")]))
                  (snd (shorten_url env0 (Ok (JObj [("url", JStr "http://a")]))
                          world0))))
       = db world0 ++ [r1; r2]
       /\ Db.short_code r1 = "82795f" /\ Db.short_code r2 = "115ec9"
       /\ Db.long_url r1 = "http://a" /\ Db.long_url r2 = "http://a"
       /\ Db.id r1 <> Db.id r2.
Proof.
  apply (shorten_twice_distinct env0 env0 [("url", JStr "http://a")]
           "http://a" world0 "82795f" "115ec9").
  - reflexivity.
  - vm_compute. reflexivity.
  - vm_compute. reflexivity.
Defined.

(** C10: take a valid url whose five candidate codes (from the url itself
    and from the url followed by 0, 1, 2 and 3) differ from one another and
    are carried by no row.  Of six requests in a row to shorten it, the first
    five succeed, announcing the five candidates in order, and the sixth
    answers 500 and inserts nothing: the table after it is the table after
    the fifth. *)
Theorem sixth_shorten_exhausted :
  forall (envs : list Env) (e6 : Env) (d : list (string * json))
         (url : string) (w : World),
    dict_get "url" d = Some (JStr url) ->
    valid_url url = true ->
    NoDup (candidates url) ->
    (forall c : string, In c (candidates url) -> ~ In c (codes (db w))) ->
    List.length envs = 5 ->
    candidates url
    = [code_of url; code_of (url ++ "0"); code_of (url ++ "1");
       code_of (url ++ "2"); code_of (url ++ "3")]
    /\ fst (serve (repeated (Ok (JObj d)) (envs ++ [e6])) w)
       = map (fun c => created c url) (candidates url)
         ++ [jsonify
               [("error", JStr "Failed to generate unique short code")] 500]
    /\ codes (db (snd (serve (repeated (Ok (JObj d)) (envs ++ [e6])) w)))
       = codes (db w) ++ candidates url
    /\ db (snd (serve (repeated (Ok (JObj d)) (envs ++ [e6])) w))
       = db (snd (serve (repeated (Ok (JObj d)) envs) w)).
Proof.
  intros envs e6 d url w Hd Hv Hnd Hfresh Hlen.
  split; [apply candidates_eq|].
  apply (repeated_shorten d url Hd Hv (candidates url) [] envs e6 w);
    auto.
  intros c [].
Qed.

Lemma sixth_shorten_exhausted_witness :
  candidates "http://a"
  = [code_of "http://a"; code_of ("http://a" ++ "0");
     code_of ("http://a" ++ "1"); code_of ("http://a" ++ "2");
     code_of ("http://a" ++ "3")]
  /\ fst (serve (repeated (Ok (JObj [("url", JStr "http://a")]))
                   (repeat env0 5 ++ [env0])) world0)
     = map (fun c => created c "http://a") (candidates "http://a")
       ++ [jsonify
             [("error", JStr "Failed to generate unique short code")] 500]
  /\ codes (db (snd (serve (repeated (Ok (JObj [("url", JStr "http://a")]))
                              (repeat env0 5 ++ [env0])) world0)))
     = codes (db world0) ++ candidates "http://a"
  /\ db (snd (serve (repeated (Ok (JObj [("url", JStr "http://a")]))
                       (repeat env0 5 ++ [env0])) world0))
     = db (snd (serve (repeated (Ok (JObj [("url", JStr "http://a")]))
                         (repeat env0 5)) world0)).
Proof.
  apply (sixth_shorten_exhausted (repeat env0 5) env0
           [("url", JStr "http://a")] "http://a" world0).
  - reflexivity.
  - reflexivity.
  - vm_compute. repeat constructor; simpl; intuition discriminate.
  - vm_compute. tauto.
  - reflexivity.
Defined.

(** C4, as worded, fails: with the code of the url taken, the handler
    announces the code of the url followed by 0, where the wording (a retry
    hashes the url followed by its own attempt number, 1) predicts the code
    of the url followed by 1. *)
Lemma allocator_as_worded_counterexample :
  fst (shorten_url env0 (Ok (JObj [("url", JStr "http://a")]))
         (world_after 1))
  = created "115ec9" "http://a"
  /\ first_free (db (world_after 1)) (spec_candidates "http://a")
     = Some "660e2e"
  /\ ~ allocator_as_worded.
Proof.
  assert (H1 : fst (shorten_url env0 (Ok (JObj [("url", JStr "http://a")]))
                      (world_after 1))
               = created "115ec9" "http://a")
    by (vm_compute; reflexivity).
  assert (H2 : first_free (db (world_after 1)) (spec_candidates "http://a")
               = Some "660e2e")
    by (vm_compute; reflexivity).
  split; [exact H1|]. split; [exact H2|].
  intros H.
  specialize (H env0 [("url", JStr "http://a")] "http://a" (world_after 1)
                eq_refl eq_refl).
  rewrite H1, H2 in H. discriminate H.
Qed.

(** C4, amended: for a valid url that [encode] accepts (here [url] is a
    [string], a str without a lone surrogate) the handler looks up, in this
    order, the code of the url and the codes of the url followed by 0, 1, 2
    and 3 (the
    number appended is that of the attempt that collided, one less than the
    number of the attempt that looks the code up).  It inserts and announces
    the first of the five that no row carries, and it answers the failure
    exactly when rows carry all five; then it writes nothing. *)
Theorem allocator_examines_in_order :
  forall (env : Env) (d : list (string * json)) (url : string) (w : World),
    dict_get "url" d = Some (JStr url) ->
    valid_url url = true ->
    candidates url
    = [code_of url; code_of (url ++ "0"); code_of (url ++ "1");
       code_of (url ++ "2"); code_of (url ++ "3")]
    /\ (forall (pre post : list string) (c : string),
           candidates url = pre ++ c :: post ->
           (forall x : string, In x pre -> In x (codes (db w))) ->
           ~ In c (codes (db w)) ->
           fst (shorten_url env (Ok (JObj d)) w) = created c url
           /\ db (snd (shorten_url env (Ok (JObj d)) w))
              = db w ++ [new_row (db w) env c url])
    /\ ((forall c : string, In c (candidates url) -> In c (codes (db w)))
        <-> fst (shorten_url env (Ok (JObj d)) w) = exhausted)
    /\ (fst (shorten_url env (Ok (JObj d)) w) = exhausted ->
        db (snd (shorten_url env (Ok (JObj d)) w)) = db w).
Proof.
  intros env d url w Hd Hv.
  destruct (shorten_url_valid env d url w Hd Hv) as [g' Hg'].
  split; [apply candidates_eq|].
  split; [|split].
  - intros pre post c Hc Hpre Hfree.
    rewrite Hc, (first_free_split (db w) pre post c Hpre Hfree) in Hg'.
    rewrite Hg'. split; reflexivity.
  - split.
    + intros Hall. apply first_free_none in Hall.
      rewrite Hall in Hg'. rewrite Hg'. reflexivity.
    + intros He. apply first_free_none.
      destruct (first_free (db w) (candidates url)) as [c|]; [|reflexivity].
      rewrite Hg' in He. discriminate He.
  - intros He.
    destruct (first_free (db w) (candidates url)) as [c|]; rewrite Hg' in *.
    + discriminate He.
    + reflexivity.
Qed.

Lemma allocator_examines_in_order_witness :
  fst (shorten_url env0 (Ok (JObj [("url", JStr "http://a")]))
         (world_after 2))
  = created "660e2e" "http://a"
  /\ db (snd (shorten_url env0 (Ok (JObj [("url", JStr "http://a")]))
                (world_after 2)))
     = db (world_after 2)
          ++ [new_row (db (world_after 2)) env0 "660e2e" "http://a"].
Proof.
  apply (proj1 (proj2 (allocator_examines_in_order env0
                         [("url", JStr "http://a")] "http://a"
                         (world_after 2) eq_refl eq_refl))
           ["82795f"; "115ec9"] ["c54579"; "49738f"] "660e2e").
  - vm_compute. reflexivity.
  - vm_compute. tauto.
  - vm_compute. intuition discriminate.
Defined.

(** C5, the failing input: a body that is the JSON number 5 has no [url]
    member, yet the answer is 500, not 400: ['url' not in data] raises
    TypeError on an int and the handler's [except] turns it into a 500.
    The state is as it was. *)
Theorem shorten_number_body :
  forall (env : Env) (w : World),
    shorten_url env (Ok (JInt 5)) w
    = (jsonify [("error", JStr "argument of type 'int' is not iterable")] 500,
       w)
    /\ Py.getitem (JInt 5) "url"
       = Raise (TypeError "'int' object is not subscriptable").
Proof. intros env w. split; reflexivity. Qed.

(** What validation does on a body that is a JSON object: without a [url]
    member, or with a [url] string that has neither prefix, the answer is
    400 with an error and the state is as it was. *)
Lemma validation_rejects_object (env : Env) (d : list (string * json))
  (w : World) :
  dict_get "url" d = None
  \/ (exists url : string,
         dict_get "url" d = Some (JStr url) /\ valid_url url = false) ->
  exists msg : string,
    shorten_url env (Ok (JObj d)) w = (jsonify [("error", JStr msg)] 400, w).
Proof.
  intros [Hd | [url [Hd Hv]]]; run_handler.
  - destruct (Nat.eqb (List.length d) 0); cbn [negb]; [eexists; reflexivity|].
    destruct (existsb _ d) eqn:Hk; cbn [negb]; [|eexists; reflexivity].
    apply dict_key_get in Hk. destruct Hk as [v Hk]. congruence.
  - assert (Ht : Nat.eqb (List.length d) 0 = false)
      by (destruct d; [discriminate | reflexivity]).
    rewrite Ht, (dict_get_key _ _ _ Hd), Hd. cbn [negb PyStr.bytes].
    fold (valid_url url). rewrite Hv. cbn [negb]. eexists. reflexivity.
Qed.

(** C8, as worded, fails on ties: two urls shortened within one second carry
    the same [created_at], and the listing shows both, so it does not
    descend strictly. *)
Lemma list_urls_ties_counterexample :
  reachable (world_after 2)
  /\ map Db.created_at (Db.select_recent (db (world_after 2)))
     = ["2024-01-01 00:00:00"; "2024-01-01 00:00:00"]
  /\ ~ Sorted strictly_newer (Db.select_recent (db (world_after 2))).
Proof.
  split; [apply serve_reachable; constructor|].
  split; [vm_compute; reflexivity|].
  intros H.
  assert (E : exists r1 r2,
             Db.select_recent (db (world_after 2)) = [r1; r2]
             /\ Db.created_at r1 = "2024-01-01 00:00:00"
             /\ Db.created_at r2 = "2024-01-01 00:00:00").
  { vm_compute. eexists. eexists. repeat split. }
  destruct E as [r1 [r2 [E [E1 E2]]]]. rewrite E in H.
  inversion H as [|? ? _ Hd]; subst.
  inversion Hd as [|? ? Hlt]; subst.
  unfold strictly_newer in Hlt. rewrite E1, E2 in Hlt.
  vm_compute in Hlt. discriminate Hlt.
Qed.

(** C8, amended: [GET /list] answers 200 with at most 10 rows of the table,
    in descending order of [created_at] where rows of equal [created_at]
    may follow one another (the order is not strict); no row left out is
    newer than a row shown; each entry carries [short_code], [long_url],
    [created_at] and the [short_url] built from the code; [total_count] is
    the number of entries; the state is as it was. *)
Theorem list_urls_recent :
  forall w : World,
    list_urls w
    = (jsonify
         [("recent_urls", JArr (map list_entry (Db.select_recent (db w))));
          ("total_count",
           JInt (Z.of_nat (List.length (Db.select_recent (db w)))))]
         200, w)
    /\ List.length (Db.select_recent (db w)) <= 10
    /\ StronglySorted newer_or_same (Db.select_recent (db w))
    /\ (exists rest : list Db.UrlRecord,
           Permutation (Db.select_recent (db w) ++ rest) (db w)
           /\ forall a b : Db.UrlRecord,
                In a (Db.select_recent (db w)) -> In b rest ->
                newer_or_same a b)
    /\ (forall r : Db.UrlRecord,
           list_entry r
           = JObj [("short_code", JStr (Db.short_code r));
                   ("long_url", JStr (Db.long_url r));
                   ("created_at", JStr (Db.created_at r));
                   ("short_url",
                    JStr ("http://localhost:5000/"
                            ++ Db.short_code r)%string)]).
Proof.
  intros w.
  pose proof (order_by_sorted (db w)) as Hs.
  rewrite <- (firstn_skipn 10 (Db.order_by_created_at_desc (db w))) in Hs.
  apply sorted_split in Hs. destruct Hs as [Hs1 Hs2].
  split; [|split; [|split; [|split]]].
  - unfold list_urls, try_except, bind, read_db, ret.
    rewrite length_map. reflexivity.
  - unfold Db.select_recent. rewrite length_firstn. lia.
  - exact Hs1.
  - exists (skipn 10 (Db.order_by_created_at_desc (db w))). split.
    + unfold Db.select_recent. rewrite firstn_skipn. apply order_by_perm.
    + exact Hs2.
  - intros r. reflexivity.
Qed.


(** * Further properties of the handlers *)

(** ** The generator at other lengths *)

Lemma length_append (a b : string) :
  String.length (a ++ b) = String.length a + String.length b.
Proof. induction a as [|c a IH]; simpl; congruence. Qed.

Lemma take_append_ge (n : nat) (a b : string) :
  String.length a <= n ->
  substring 0 n (a ++ b)
  = (a ++ substring 0 (n - String.length a) b)%string.
Proof.
  revert n.
  induction a as [|c a IH]; intros n Hn; simpl in *.
  - rewrite Nat.sub_0_r. reflexivity.
  - destruct n as [|n]; [lia|]. simpl. f_equal. apply IH. lia.
Qed.

Lemma take_all (n : nat) (a : string) :
  String.length a <= n -> substring 0 n a = a.
Proof.
  revert n. induction a as [|c a IH]; intros [|n] Hn; simpl in *;
    try reflexivity; try lia.
  f_equal. apply IH. lia.
Qed.

Lemma append_inj_l (a b c : string) : (a ++ b = a ++ c)%string -> b = c.
Proof.
  induction a as [|x a IH]; simpl; intros H; [exact H|].
  inversion H. auto.
Qed.

Lemma choices_length (pop : list ascii) (k : nat) (g : Rng) :
  List.length (fst (PyRandom.choices pop k g)) = k.
Proof.
  revert g. induction k as [|k IH]; intros g; [reflexivity|].
  cbn [PyRandom.choices PyRandom.choice].
  specialize (IH (MkRng (draws g) (S (used g)))).
  destruct (PyRandom.choices pop k _) as [cs g2]. simpl in *. congruence.
Qed.

(** The digest followed by the three random characters. *)
Lemma generate_short_code_fst (url : string) (n : Z) (g : Rng) :
  fst (generate_short_code url n g)
  = Ok (PyStr.slice_to n
          (MD5.hexdigest url
             ++ PyStr.join (fst (PyRandom.choices PyRandom.alphabet 3 g)))).
Proof.
  unfold generate_short_code. cbn [PyStr.encode].
  destruct (PyRandom.choices PyRandom.alphabet 3 g) as [cs g'].
  reflexivity.
Qed.

Lemma combined_length (url : string) (g : Rng) :
  String.length
    (MD5.hexdigest url
       ++ PyStr.join (fst (PyRandom.choices PyRandom.alphabet 3 g)))
  = 35.
Proof.
  rewrite length_append, hexdigest_length.
  unfold PyStr.join. rewrite length_string_of_list_ascii, choices_length.
  reflexivity.
Qed.

Lemma slice_to_take (n : Z) (a : string) :
  String.length a = 35 ->
  PyStr.slice_to n a = substring 0 (Z.to_nat (kept n)) a.
Proof.
  intros Ha. unfold PyStr.slice_to, kept.
  destruct (Z.leb_spec 0 n) as [Hn | Hn].
  - destruct (Z.leb_spec n 35).
    + reflexivity.
    + rewrite !take_all by lia. reflexivity.
  - rewrite Ha. f_equal. lia.
Qed.

(** X1: for a url that [encode] accepts and any int [length], the code has
    [length] characters only for 0 <= length <= 35; beyond 35 it has the 35
    of the digest and the three random characters, and a negative [length]
    counts from the end: 35 + length characters, none below -35. *)
Theorem generate_short_code_length :
  forall (url : string) (n : Z) (g : Rng),
  exists code : string,
    fst (generate_short_code url n g) = Ok code
    /\ Z.of_nat (String.length code)
       = (if (0 <=? n)%Z then Z.min n 35 else Z.max 0 (35 + n)).
Proof.
  intros url n g. rewrite generate_short_code_fst.
  eexists. split; [reflexivity|].
  rewrite (slice_to_take _ _ (combined_length url g)).
  rewrite take_length, combined_length. unfold kept.
  destruct (Z.leb_spec 0 n); [destruct (Z.leb_spec n 35)|]; lia.
Qed.

(** X2: the random draws reach the code exactly when more than 32
    characters are kept, that is for length above 32 and for length -1 and
    -2.  When at most 32 are kept the code is that head of the digest
    whatever is drawn; otherwise two generator states give two different
    codes for the same url. *)
Theorem generate_short_code_random_beyond_digest :
  forall (url : string) (n : Z),
    ((kept n <= 32)%Z ->
     forall g : Rng,
       fst (generate_short_code url n g)
       = Ok (PyStr.slice_to (kept n) (MD5.hexdigest url)))
    /\ ((32 < kept n)%Z ->
        fst (generate_short_code url n (rng_const 0))
        <> fst (generate_short_code url n (rng_const 1))).
Proof.
  intros url n.
  assert (Hk : (0 <= kept n <= 35)%Z).
  { unfold kept. destruct (0 <=? n)%Z eqn:E; [|lia].
    apply Z.leb_le in E. destruct (Z.leb_spec n 35); lia. }
  split.
  - intros Hn g. rewrite generate_short_code_fst.
    rewrite (slice_to_take _ _ (combined_length url g)).
    rewrite slice_to_nonneg by lia. f_equal.
    apply take_append. rewrite hexdigest_length. lia.
  - intros Hn. rewrite !generate_short_code_fst.
    rewrite (slice_to_take _ _ (combined_length url (rng_const 0))).
    rewrite (slice_to_take _ _ (combined_length url (rng_const 1))).
    rewrite !take_append_ge by (rewrite hexdigest_length; lia).
    rewrite hexdigest_length. intros H.
    assert (H' := f_equal (fun r => match r with
                                    | Ok c => c
                                    | Raise _ => ""%string
                                    end) H).
    cbn beta iota in H'. apply append_inj_l in H'.
    destruct (Z.to_nat (kept n) - 32) as [|k] eqn:E; [lia|].
    vm_compute in H'. discriminate H'.
Qed.

Lemma generate_short_code_random_beyond_digest_witness :
  fst (generate_short_code "http://a" (-3) rng0)
  = Ok (PyStr.slice_to (kept (-3)) (MD5.hexdigest "http://a"))
  /\ fst (generate_short_code "http://a" (-1) (rng_const 0))
     <> fst (generate_short_code "http://a" (-1) (rng_const 1)).
Proof.
  split.
  - apply (proj1 (generate_short_code_random_beyond_digest "http://a" (-3))).
    vm_compute. discriminate.
  - apply (proj2 (generate_short_code_random_beyond_digest "http://a" (-1))).
    vm_compute. reflexivity.
Defined.

(** ** What validation accepts *)

Lemma prefix_iff (p s : string) :
  prefix p s = true <-> exists r : string, s = (p ++ r)%string.
Proof.
  revert s. induction p as [|c p IH]; intros s.
  - split; [intros _; exists s; reflexivity | destruct s; reflexivity].
  - destruct s as [|c' s]; cbn [prefix append].
    + split; [discriminate | intros [r Hr]; discriminate].
    + destruct (ascii_dec c c') as [<- | Hne].
      * rewrite IH. split; intros [r Hr]; exists r.
        -- rewrite Hr. reflexivity.
        -- inversion Hr. reflexivity.
      * split; [discriminate | intros [r Hr]; inversion Hr; congruence].
Qed.

Lemma contains_iff (p s : string) :
  PyStr.contains p s = true
  <-> exists a b : string, s = (a ++ p ++ b)%string.
Proof.
  induction s as [|c s IH]; cbn [PyStr.contains].
  - rewrite orb_false_r, prefix_iff. split.
    + intros [r Hr]. exists "", r. exact Hr.
    + intros [a [b H]]. destruct a; [exists b; exact H | discriminate].
  - rewrite orb_true_iff, prefix_iff, IH. split.
    + intros [[r Hr] | [a [b H]]].
      * exists "", r. exact Hr.
      * exists (String c a), b. rewrite H. reflexivity.
    + intros [a [b H]]. destruct a as [|x a].
      * left. exists b. exact H.
      * right. exists a, b. inversion H. reflexivity.
Qed.

(** X3: validation accepts exactly the urls that begin with the lowercase
    text http:// or https://, whatever follows, even nothing. *)
Theorem valid_url_iff :
  forall url : string,
    valid_url url = true
    <-> exists rest : string,
          url = ("http://" ++ rest)%string
          \/ url = ("https://" ++ rest)%string.
Proof.
  intros url. unfold valid_url, PyStr.startswith_any, PyStr.startswith.
  cbn [existsb]. rewrite orb_false_r, orb_true_iff, !prefix_iff.
  split.
  - intros [[r H] | [r H]]; exists r; auto.
  - intros [r [H | H]]; [left | right]; exists r; exact H.
Qed.

Lemma shorten_url_try_valid (env : Env) (d : list (string * json))
  (url : string) (w : World) :
  dict_get "url" d = Some (JStr url) ->
  valid_url url = true ->
  exists (r : Response) (w' : World),
    shorten_url_try env (Ok (JObj d)) w = (Ok r, w').
Proof.
  intros Hd Hv. unfold shorten_url_try.
  unfold bind at 1. unfold lift at 1.
  assert (Ht : Py.truthy (JObj d) = true).
  { destruct d; [discriminate | reflexivity]. }
  rewrite Ht. cbn [negb].
  unfold bind at 1. unfold bind at 1. unfold lift at 1.
  cbn [Py.contains]. rewrite (dict_get_key _ _ _ Hd). unfold ret at 1.
  cbn [negb].
  unfold bind at 1. unfold lift at 1. cbn [Py.getitem]. rewrite Hd.
  cbn [PyStr.bytes]. fold (valid_url url). rewrite Hv. cbn [negb].
  unfold bind at 1. unfold with_rng at 1. rewrite generate_short_code_eq.
  unfold bind at 1.
  destruct (collision_loop_spec url (seq 0 max_attempts) (code_of url)
              (MkWorld (db w) (MkRng (draws (rng w)) (3 + used (rng w)))))
    as [g' Hg'].
  rewrite Hg'. cbn [db].
  destruct (first_free (db w) _) as [c|] eqn:E.
  - apply first_free_absent in E. destruct E as [_ E].
    unfold bind at 1. unfold lift at 1. cbn [Db.bind PyStr.encode].
    unfold bind at 1. unfold write_db at 1. cbn [db rng].
    rewrite (insert_fresh _ _ _ _ E). eexists. eexists. reflexivity.
  - eexists. eexists. reflexivity.
Qed.

Ltac run_try :=
  unfold shorten_url_try, bind, lift, ret, raise;
  cbn [Py.truthy Py.contains Py.getitem negb fst snd db].

(** What the [try] block of [shorten_url] raises, when the table and the
    log answer as they should: what [get_json] raised, a TypeError, an
    AttributeError or the UnicodeEncodeError of [url.encode()]. *)
Lemma shorten_url_try_raises (env : Env) (body : result json) (w : World)
  (e : exn) :
  fst (shorten_url_try env body w) = Raise e ->
  body = Raise e
  \/ (exists msg : string, e = TypeError msg)
  \/ (exists msg : string, e = AttributeError msg)
  \/ (exists msg : string, e = UnicodeEncodeError msg).
Proof.
  destruct body as [data|e0];
    [|run_try; intros H; inversion H; left; reflexivity].
  destruct data as [ |b|n|q|s|l|d].
  - run_try. discriminate.
  - run_try. destruct b; cbn [negb fst]; [|discriminate].
    intros H. inversion H. right. left. eexists. reflexivity.
  - run_try. destruct (n =? 0)%Z; cbn [negb fst]; [discriminate|].
    intros H. inversion H. right. left. eexists. reflexivity.
  - run_try. destruct (Qeq_bool q 0); cbn [negb fst]; [discriminate|].
    intros H. inversion H. right. left. eexists. reflexivity.
  - run_try. destruct (PyStr.bytes s =? "")%string; cbn [negb fst];
      [discriminate|].
    destruct (PyStr.contains "url" (PyStr.bytes s)); cbn [negb fst];
      [|discriminate].
    intros H. inversion H. right. left. eexists. reflexivity.
  - run_try. destruct (Nat.eqb (List.length l) 0); cbn [negb fst];
      [discriminate|].
    destruct (existsb (Py.str_eq "url") l); cbn [negb fst]; [|discriminate].
    intros H. inversion H. right. left. eexists. reflexivity.
  - destruct (dict_get "url" d) as [v|] eqn:Hd.
    + assert (Ht : Nat.eqb (List.length d) 0 = false)
        by (destruct d; [discriminate | reflexivity]).
      destruct v as [ |b|n|q|p|l|d'];
        try (run_try; rewrite Ht, (dict_get_key _ _ _ Hd), Hd;
             cbn [negb fst]; intros H; inversion H;
             right; right; left; eexists; reflexivity).
      destruct p as [url|before k after].
      * destruct (valid_url url) eqn:Hv.
        -- destruct (shorten_url_try_valid env d url w Hd Hv) as [r [w' Hr]].
           rewrite Hr. discriminate.
        -- run_try. rewrite Ht, (dict_get_key _ _ _ Hd), Hd.
           cbn [negb PyStr.bytes].
           fold (valid_url url). rewrite Hv. cbn [negb fst]. discriminate.
      * run_try. rewrite Ht, (dict_get_key _ _ _ Hd), Hd. cbn [negb].
        destruct (PyStr.startswith_any _ _); cbn [negb fst]; [|discriminate].
        unfold with_rng, generate_short_code. cbn [PyStr.encode fst].
        intros H. inversion H. right. right. right. eexists. reflexivity.
    + run_try.
      destruct (Nat.eqb (List.length d) 0); cbn [negb fst]; [discriminate|].
      destruct (existsb _ d) eqn:Hk; cbn [negb fst]; [|discriminate].
      apply dict_key_get in Hk. destruct Hk as [v Hk]. congruence.
Qed.

(** X4: whatever JSON value the body holds, [data['url']] never raises
    KeyError (the guard before it has found the key) and, with requests
    served one at a time, the INSERT never violates the UNIQUE constraint
    (the loop before it has found the code free). *)
Theorem shorten_url_never_key_or_integrity :
  forall (env : Env) (data : json) (w : World) (msg : string),
    fst (shorten_url_try env (Ok data) w) <> Raise (KeyError msg)
    /\ fst (shorten_url_try env (Ok data) w) <> Raise (IntegrityError msg).
Proof.
  intros env data w msg.
  split; intros H;
    destruct (shorten_url_try_raises env (Ok data) w _ H)
      as [Hb | [[m Hm] | [[m Hm] | [m Hm]]]]; discriminate.
Qed.

(** X5: a body that is a JSON object whose [url] member is not a string
    (a number, null, a list ...) is answered 500 with the AttributeError
    text, not 400, and nothing is written or drawn. *)
Theorem shorten_url_not_a_string :
  forall (env : Env) (d : list (string * json)) (v : json) (w : World),
    dict_get "url" d = Some v ->
    (forall u : pystr, v <> JStr u) ->
    shorten_url env (Ok (JObj d)) w
    = (jsonify
         [("error",
           JStr ("'" ++ Py.type_name v
                     ++ "' object has no attribute 'startswith'")%string)]
         500, w).
Proof.
  intros env d v w Hd Hv.
  assert (Ht : Nat.eqb (List.length d) 0 = false)
    by (destruct d; [discriminate | reflexivity]).
  run_handler. rewrite Ht, (dict_get_key _ _ _ Hd), Hd. cbn [negb].
  destruct v; try reflexivity.
  exfalso. apply (Hv s). reflexivity.
Qed.

Lemma shorten_url_not_a_string_witness :
  shorten_url env0 (Ok (JObj [("url", JNull)])) world0
  = (jsonify
       [("error",
         JStr ("'" ++ Py.type_name JNull
                   ++ "' object has no attribute 'startswith'")%string)]
       500, world0).
Proof.
  apply (shorten_url_not_a_string env0 [("url", JNull)] JNull world0).
  - reflexivity.
  - intros u H. discriminate H.
Defined.

(** X6: a body that is a JSON string is answered 500 when the text url
    occurs in it (['url' in data] holds for a substring and [data['url']]
    then raises TypeError) and 400 otherwise; the state stays as it was. *)
Theorem shorten_url_string_body :
  forall (env : Env) (s : string) (w : World),
    ((exists a b : string, s = (a ++ "url" ++ b)%string) ->
     shorten_url env (Ok (JStr s)) w
     = (jsonify
          [("error", JStr "string indices must be integers, not 'str'")]
          500, w))
    /\ (~ (exists a b : string, s = (a ++ "url" ++ b)%string) ->
        shorten_url env (Ok (JStr s)) w
        = (jsonify [("error", JStr "URL is required")] 400, w)).
Proof.
  intros env s w. rewrite <- contains_iff.
  split; intros H; run_handler; cbn [PyStr.bytes].
  - destruct (String.eqb_spec s "") as [-> | _]; [discriminate H|].
    cbn [negb]. rewrite H. reflexivity.
  - apply not_true_is_false in H. rewrite H.
    destruct (s =? "")%string; reflexivity.
Qed.

Lemma shorten_url_string_body_witness :
  shorten_url env0 (Ok (JStr "curl")) world0
  = (jsonify [("error", JStr "string indices must be integers, not 'str'")]
             500, world0)
  /\ shorten_url env0 (Ok (JStr "http://a")) world0
     = (jsonify [("error", JStr "URL is required")] 400, world0).
Proof.
  split.
  - apply (proj1 (shorten_url_string_body env0 "curl" world0)).
    exists "c", "". reflexivity.
  - apply (proj2 (shorten_url_string_body env0 "http://a" world0)).
    rewrite <- contains_iff. vm_compute. discriminate.
Defined.

(** ** What the table can hold *)

Lemma handle_rows (env : Env) (req : Request) (w : World) :
  db (snd (handle env req w)) = db w
  \/ exists c url : string,
       valid_url url = true
       /\ In c (candidates url)
       /\ ~ In c (codes (db w))
       /\ fst (handle env req w) = created c url
       /\ db (snd (handle env req w)) = db w ++ [new_row (db w) env c url].
Proof.
  destruct req as [ | |body|code| | ]; cbn [handle];
    try (left; reflexivity).
  - destruct (shorten_url_cases env body w)
      as [[code [_ [_ Hs]]] | [d [url [c H]]]].
    + left. exact Hs.
    + right. exists c, url.
      destruct H as [_ [_ [Hv [Hf [Hr Hs]]]]].
      apply first_free_absent in Hf. destruct Hf as [Hin Hf].
      repeat split; auto.
      rewrite <- has_code_In. congruence.
  - left. rewrite redirect_url_eq. reflexivity.
Qed.

(** Induction over the tables of the reachable states. *)
Lemma reachable_rows_ind (P : Db.Store -> Prop) :
  P [] ->
  (forall (s : Db.Store) (env : Env) (c url : string),
      P s -> valid_url url = true -> In c (candidates url) ->
      ~ In c (codes s) -> P (s ++ [new_row s env c url])) ->
  forall w : World, reachable w -> P (db w).
Proof.
  intros H0 Hstep w Hw.
  induction Hw as [g | env req w _ IH]; [exact H0|].
  destruct (handle_rows env req w) as [-> | [c [url H]]]; [exact IH|].
  destruct H as [Hv [Hin [Hfree [_ ->]]]].
  apply Hstep; assumption.
Qed.


Lemma serve_appends (reqs : list (Env * Request)) :
  forall w : World,
  exists new : list Db.UrlRecord,
    db (snd (serve reqs w)) = db w ++ new
    /\ List.length new = List.length (issued (fst (serve reqs w)))
    /\ List.length new <= List.length reqs.
Proof.
  induction reqs as [|[env req] rest IH]; intros w; cbn [serve].
  - exists []. rewrite app_nil_r. cbn. auto.
  - pose proof (handle_rows env req w) as Hh.
    pose proof (handle_issued env req w) as Hi.
    destruct (handle env req w) as [r w1].
    destruct (IH w1) as [new [Hn [Hl Hle]]].
    destruct (serve rest w1) as [rs w2]. cbn [fst snd] in *.
    rewrite (issued_cons r rs), length_app, <- Hl.
    destruct Hh as [Hh | [c [url [_ [_ [_ [Hr Hh]]]]]]].
    + exists new. rewrite Hh in Hn, Hi.
      assert (Hz : issued [r] = []).
      { apply (app_inv_head (codes (db w))). rewrite app_nil_r.
        symmetry. exact Hi. }
      rewrite Hz. cbn [List.length]. split; [exact Hn|]. split; lia.
    + exists (new_row (db w) env c url :: new).
      rewrite Hn, Hh, <- app_assoc, Hr. cbn [issued].
      rewrite issued_code_created. cbn [List.length app].
      split; [reflexivity|]. split; lia.
Qed.

(** X7: every handler but [shorten_url] leaves the whole state as it was,
    the table and the random generator alike. *)
Theorem other_handlers_read_only :
  forall (env : Env) (req : Request) (w : World),
    (forall body : result json, req <> PostShorten body) ->
    snd (handle env req w) = w.
Proof.
  intros env req w Hreq.
  destruct req as [ | |body|code| | ]; cbn [handle]; try reflexivity.
  - exfalso. apply (Hreq body). reflexivity.
  - rewrite redirect_url_eq. reflexivity.
Qed.

Lemma other_handlers_read_only_witness :
  snd (handle env0 GetList (world_after 2)) = world_after 2.
Proof.
  apply (other_handlers_read_only env0 GetList (world_after 2)).
  intros body H. discriminate H.
Defined.

(** X8: the table only grows at its end.  Whatever requests are served, the
    rows present before are still there, unchanged and in place, followed by
    one new row for each 201 answered, at most one for each request. *)
Theorem table_append_only :
  forall (reqs : list (Env * Request)) (w : World),
  exists new : list Db.UrlRecord,
    db (snd (serve reqs w)) = db w ++ new
    /\ List.length new = List.length (issued (fst (serve reqs w)))
    /\ List.length new <= List.length reqs.
Proof. intros reqs w. apply serve_appends. Qed.






(** X10: [GET /stats] reports the number of rows, which is the number of
    rows the run started with plus the number of 201 answers given since;
    from an empty table, the number of 201 answers ever given. *)
Theorem stats_counts_created :
  forall (reqs : list (Env * Request)) (w : World),
    get_stats (snd (serve reqs w))
    = (jsonify
         [("total_shortened_urls",
           JInt (Z.of_nat (List.length (db w)
                           + List.length (issued (fst (serve reqs w))))));
          ("service", JStr "URL Shortener");
          ("version", JStr "1.0.0")]
         200, snd (serve reqs w)).
Proof.
  intros reqs w. unfold get_stats, try_except, bind, read_db, ret, Db.count.
  destruct (serve_appends reqs w) as [new [Hn [Hl _]]].
  rewrite Hn, length_app, Hl. reflexivity.
Qed.

Lemma fold_max_snoc (l : list Z) (x : Z) :
  (0 <= x)%Z ->
  fold_right Z.max 0%Z (l ++ [x]) = Z.max (fold_right Z.max 0%Z l) x.
Proof.
  intros Hx. induction l as [|a l IH]; cbn [app fold_right]; [lia|].
  rewrite IH. lia.
Qed.

(** X11: in every reachable state the ids are 1, 2, 3, ... in row order:
    the n-th row inserted has id n. *)
Theorem ids_count_from_one :
  forall w : World,
    reachable w ->
    map Db.id (db w)
    = map Z.of_nat (seq 1 (List.length (db w))).
Proof.
  apply (reachable_rows_ind
           (fun s => map Db.id s = map Z.of_nat (seq 1 (List.length s)))).
  - reflexivity.
  - intros s env c url IH _ _ _.
    assert (Hmax : fold_right Z.max 0%Z (map Db.id s)
                   = Z.of_nat (List.length s)).
    { rewrite IH. clear IH. induction (List.length s) as [|n IHn].
      - reflexivity.
      - rewrite seq_S, map_app. cbn [map].
        rewrite fold_max_snoc, IHn by lia. lia. }
    rewrite map_app, length_app, IH. cbn [List.length map new_row Db.id].
    rewrite Nat.add_1_r, seq_S, map_app. cbn [map]. f_equal. f_equal.
    unfold Db.next_id. rewrite Hmax. lia.
Qed.

Lemma ids_count_from_one_witness :
  map Db.id (db (snd (serve (same_url_runs 3) world0)))
  = map Z.of_nat
      (seq 1 (List.length (db (snd (serve (same_url_runs 3) world0))))).
Proof.
  apply (ids_count_from_one (snd (serve (same_url_runs 3) world0))).
  apply serve_reachable. apply reach_init.
Defined.

Lemma reachable_rows (w : World) :
  reachable w ->
  forall r : Db.UrlRecord,
    In r (db w) ->
    valid_url (Db.long_url r) = true
    /\ In (Db.short_code r) (candidates (Db.long_url r)).
Proof.
  revert w.
  apply (reachable_rows_ind
           (fun s => forall r, In r s ->
                       valid_url (Db.long_url r) = true
                       /\ In (Db.short_code r) (candidates (Db.long_url r)))).
  - intros r [].
  - intros s env c url IH Hv Hc _ r Hr.
    apply in_app_or in Hr. destruct Hr as [Hr | [<- | []]]; [auto|].
    cbn [new_row Db.long_url Db.short_code]. auto.
Qed.

(** X12: in every reachable state each row holds a url that passed
    validation and a code that is one of the five candidates of that url:
    the head of the digest of the url or of the url followed by 0, 1, 2
    or 3. *)
Theorem rows_hold_candidates :
  forall w : World,
    reachable w ->
    forall r : Db.UrlRecord,
      In r (db w) ->
      valid_url (Db.long_url r) = true
      /\ In (Db.short_code r) (candidates (Db.long_url r)).
Proof. exact reachable_rows. Qed.

Lemma rows_hold_candidates_witness :
  valid_url
    (Db.long_url (Db.MkUrlRecord 1 "82795f" "http://a" "2024-01-01 00:00:00"))
  = true
  /\ In (Db.short_code
           (Db.MkUrlRecord 1 "82795f" "http://a" "2024-01-01 00:00:00"))
        (candidates
           (Db.long_url
              (Db.MkUrlRecord 1 "82795f" "http://a" "2024-01-01 00:00:00"))).
Proof.
  apply (rows_hold_candidates (world_after 1)).
  - apply serve_reachable. apply reach_init.
  - vm_compute. auto.
Defined.

Lemma candidates_shape (url c : string) :
  In c (candidates url) ->
  String.length c = 6
  /\ Forall (fun x => is_lower_hex x = true) (list_ascii_of_string c).
Proof.
  rewrite candidates_eq. intros H.
  assert (Hc : exists u, c = code_of u).
  { cbn [In] in H. repeat (destruct H as [<- | H]; [eexists; reflexivity|]).
    contradiction. }
  destruct Hc as [u ->]. unfold code_of, default_length. split.
  - apply slice_to_length. rewrite hexdigest_length. lia.
  - apply slice_to_chars, hexdigest_chars.
Qed.

(** X13: in every reachable state each short code is six lowercase
    hexadecimal digits. *)
Theorem stored_codes_six_hex :
  forall w : World,
    reachable w ->
    forall r : Db.UrlRecord,
      In r (db w) ->
      String.length (Db.short_code r) = 6
      /\ Forall (fun x => is_lower_hex x = true)
           (list_ascii_of_string (Db.short_code r)).
Proof.
  intros w Hw r Hr.
  destruct (reachable_rows w Hw r Hr) as [_ Hc].
  apply (candidates_shape _ _ Hc).
Qed.

Lemma stored_codes_six_hex_witness :
  String.length
    (Db.short_code
       (Db.MkUrlRecord 1 "82795f" "http://a" "2024-01-01 00:00:00")) = 6
  /\ Forall (fun x => is_lower_hex x = true)
       (list_ascii_of_string
          (Db.short_code
             (Db.MkUrlRecord 1 "82795f" "http://a" "2024-01-01 00:00:00"))).
Proof.
  apply (stored_codes_six_hex (world_after 1)).
  - apply serve_reachable. apply reach_init.
  - vm_compute. auto.
Defined.

Lemma rows_of_incl (url : string) (s : Db.Store) (c : string) :
  In c (codes (rows_of url s)) -> In c (codes s).
Proof.
  unfold codes, rows_of. rewrite !in_map_iff.
  intros [r [Hc Hr]]. exists r. split; [exact Hc|].
  apply filter_In in Hr. tauto.
Qed.

Lemma rows_of_unique (url : string) (s : Db.Store) :
  NoDup (codes s) -> NoDup (codes (rows_of url s)).
Proof.
  induction s as [|r s IH]; intros Hs; [constructor|].
  inversion Hs as [|c cs Hfresh Hrest]; subst.
  unfold rows_of. cbn [filter].
  destruct (Db.long_url r =? url)%string; fold (rows_of url s).
  - change (NoDup (Db.short_code r :: codes (rows_of url s))).
    constructor; [|exact (IH Hrest)].
    intros Hin. apply Hfresh. exact (rows_of_incl url s _ Hin).
  - exact (IH Hrest).
Qed.

(** X14: in every reachable state a url is held by at most five rows: its
    rows carry different codes, all among its five candidates.  However
    often a url is submitted, it is shortened at most five times. *)
Theorem at_most_five_rows_per_url :
  forall w : World,
    reachable w ->
    forall url : string, List.length (rows_of url (db w)) <= 5.
Proof.
  intros w Hw url.
  assert (Hnd : NoDup (codes (rows_of url (db w)))).
  { apply rows_of_unique. apply reachable_unique. exact Hw. }
  assert (Hincl : incl (codes (rows_of url (db w))) (candidates url)).
  { intros c Hc. apply in_map_iff in Hc. destruct Hc as [r [<- Hr]].
    apply filter_In in Hr. destruct Hr as [Hr Hu].
    apply String.eqb_eq in Hu. rewrite <- Hu.
    apply (reachable_rows w Hw r Hr). }
  pose proof (NoDup_incl_length Hnd Hincl) as Hlen.
  unfold codes in Hlen. rewrite length_map in Hlen.
  rewrite candidates_eq in Hlen. exact Hlen.
Qed.

Lemma at_most_five_rows_per_url_witness :
  List.length (rows_of "http://a" (db (snd (serve (same_url_runs 8) world0))))
  <= 5.
Proof.
  apply (at_most_five_rows_per_url (snd (serve (same_url_runs 8) world0))).
  apply serve_reachable. apply reach_init.
Defined.

(** ** Creation times *)

Lemma StronglySorted_snoc {A} (R : A -> A -> Prop) (l : list A) (x : A) :
  StronglySorted R l -> Forall (fun a => R a x) l ->
  StronglySorted R (l ++ [x]).
Proof.
  induction 1 as [|a l Hl IH Ha]; intros Hx; cbn [app].
  - constructor; constructor.
  - inversion Hx; subst. constructor; [auto|].
    apply Forall_app. split; [exact Ha|]. constructor; [assumption|constructor].
Qed.

Lemma clock_le_trans : Relations_1.Transitive clock_le.
Proof. intros a b c. unfold clock_le. apply leb_trans. Qed.

Lemma serve_keeps_clock_order (reqs : list (Env * Request)) :
  forall w : World,
    StronglySorted clock_le (timestamps reqs) ->
    StronglySorted older_or_same (db w) ->
    (forall r t, In r (db w) -> In t (timestamps reqs) ->
                 clock_le (Db.created_at r) t) ->
    StronglySorted older_or_same (db (snd (serve reqs w))).
Proof.
  induction reqs as [|[env req] rest IH]; intros w Hts Hw Hle;
    cbn [serve]; [exact Hw|].
  pose proof (handle_rows env req w) as Hh.
  destruct (handle env req w) as [r w1].
  specialize (IH w1). destruct (serve rest w1) as [rs w2].
  cbn [fst snd timestamps map] in *.
  inversion Hts as [|? ? Hts' Hhd]; subst.
  apply IH; [exact Hts'| |].
  - destruct Hh as [-> | [c [url [_ [_ [_ [_ ->]]]]]]]; [exact Hw|].
    apply StronglySorted_snoc; [exact Hw|].
    apply Forall_forall. intros a Ha.
    apply (Hle a (current_timestamp env) Ha). left. reflexivity.
  - intros a t Ha Ht.
    destruct Hh as [Hh | [c [url [_ [_ [_ [_ Hh]]]]]]]; rewrite Hh in Ha.
    + apply (Hle a t Ha). right. exact Ht.
    + apply in_app_or in Ha. destruct Ha as [Ha | [<- | []]].
      * apply (Hle a t Ha). right. exact Ht.
      * cbn [new_row Db.created_at].
        rewrite Forall_forall in Hhd. apply Hhd. exact Ht.
Qed.

(** X15: when the clock of SQLite never goes back from one request to the
    next, [created_at] never decreases along the rows: a row inserted later
    has an equal or later [created_at] than every row before it. *)
Theorem created_at_follows_clock :
  forall (reqs : list (Env * Request)) (g : Rng),
    Sorted clock_le (timestamps reqs) ->
    StronglySorted older_or_same (db (snd (serve reqs (MkWorld [] g)))).
Proof.
  intros reqs g Hts.
  apply serve_keeps_clock_order.
  - apply Sorted_StronglySorted; [exact clock_le_trans | exact Hts].
  - constructor.
  - intros r t [].
Qed.

Lemma created_at_follows_clock_witness :
  StronglySorted older_or_same
    (db (snd (serve
                [(MkEnv "2024-01-01 00:00:00" 0 (Ok "<html></html>"),
                  PostShorten (post "http://a"));
                 (MkEnv "2024-01-01 00:00:01" 0 (Ok "<html></html>"),
                  PostShorten (post "http://b"))]
                (MkWorld [] rng0)))).
Proof.
  apply (created_at_follows_clock
           [(MkEnv "2024-01-01 00:00:00" 0 (Ok "<html></html>"),
             PostShorten (post "http://a"));
            (MkEnv "2024-01-01 00:00:01" 0 (Ok "<html></html>"),
             PostShorten (post "http://b"))] rng0).
  repeat constructor.
Defined.

(** ** The listing *)

(** X16: [total_count] of [GET /list] is the number of entries shown, the
    smaller of 10 and the number of rows; it is the number of rows only up
    to ten rows. *)
Theorem list_total_count_capped :
  forall w : World,
  exists entries : list json,
    fst (list_urls w)
    = jsonify
        [("recent_urls", JArr entries);
         ("total_count",
          JInt (Z.of_nat (Nat.min 10 (List.length (db w)))))]
        200
    /\ List.length entries = Nat.min 10 (List.length (db w)).
Proof.
  intros w. exists (map list_entry (Db.select_recent (db w))).
  assert (Hl : List.length (Db.select_recent (db w))
               = Nat.min 10 (List.length (db w))).
  { unfold Db.select_recent. rewrite length_firstn.
    rewrite (Permutation_length (order_by_perm (db w))). reflexivity. }
  unfold list_urls, try_except, bind, read_db, ret. cbn [fst].
  rewrite length_map, Hl. split; reflexivity.
Qed.

Lemma ltb_not_leb (a b : string) :
  String.ltb a b = true -> String.leb b a = false.
Proof.
  unfold String.ltb, String.leb. rewrite (String.compare_antisym b a).
  destruct (String.compare a b); simpl; congruence.
Qed.

Lemma strictly_older_trans : Relations_1.Transitive strictly_older.
Proof.
  intros a b c. unfold strictly_older, String.ltb.
  destruct (String.compare (Db.created_at a) (Db.created_at b)) eqn:E1;
    try discriminate.
  destruct (String.compare (Db.created_at b) (Db.created_at c)) eqn:E2;
    try discriminate.
  rewrite (compare_lt_trans _ _ _ E1 E2). reflexivity.
Qed.

Lemma place_oldest (r : Db.UrlRecord) (l : list Db.UrlRecord) :
  Forall (strictly_older r) l -> Db.place r l = l ++ [r].
Proof.
  induction 1 as [|a l Ha _ IH]; cbn [Db.place app]; [reflexivity|].
  rewrite (ltb_not_leb _ _ Ha), IH. reflexivity.
Qed.

Lemma order_by_distinct_times (s : Db.Store) :
  StronglySorted strictly_older s ->
  Db.order_by_created_at_desc s = rev s.
Proof.
  induction 1 as [|r s Hs IH Hr]; [reflexivity|].
  cbn [Db.order_by_created_at_desc fold_right rev].
  fold (Db.order_by_created_at_desc s). rewrite IH.
  apply place_oldest. apply Forall_rev. exact Hr.
Qed.

(** X17: when every row was created in a later second than the row before
    it, [GET /list] shows the last ten rows inserted, the newest first. *)
Theorem list_shows_last_ten :
  forall w : World,
    Sorted strictly_older (db w) ->
    Db.select_recent (db w) = firstn 10 (rev (db w))
    /\ fst (list_urls w)
       = jsonify
           [("recent_urls", JArr (map list_entry (firstn 10 (rev (db w)))));
            ("total_count",
             JInt (Z.of_nat (List.length (firstn 10 (rev (db w))))))]
           200.
Proof.
  intros w Hs.
  assert (H : Db.select_recent (db w) = firstn 10 (rev (db w))).
  { unfold Db.select_recent. rewrite order_by_distinct_times; [reflexivity|].
    apply Sorted_StronglySorted; [exact strictly_older_trans | exact Hs]. }
  split; [exact H|].
  unfold list_urls, try_except, bind, read_db, ret. cbn [fst].
  rewrite length_map, H. reflexivity.
Qed.

Lemma list_shows_last_ten_witness :
  Db.select_recent
    (db (MkWorld
           [Db.MkUrlRecord 1 "82795f" "http://a" "2024-01-01 00:00:00";
            Db.MkUrlRecord 2 "115ec9" "http://a" "2024-01-01 00:00:01"]
           rng0))
  = firstn 10
      (rev (db (MkWorld
                  [Db.MkUrlRecord 1 "82795f" "http://a" "2024-01-01 00:00:00";
                   Db.MkUrlRecord 2 "115ec9" "http://a" "2024-01-01 00:00:01"]
                  rng0)))
  /\ fst (list_urls
            (MkWorld
               [Db.MkUrlRecord 1 "82795f" "http://a" "2024-01-01 00:00:00";
                Db.MkUrlRecord 2 "115ec9" "http://a" "2024-01-01 00:00:01"]
               rng0))
     = jsonify
         [("recent_urls",
           JArr (map list_entry
                   (firstn 10
                      (rev (db (MkWorld
                                  [Db.MkUrlRecord 1 "82795f" "http://a"
                                     "2024-01-01 00:00:00";
                                   Db.MkUrlRecord 2 "115ec9" "http://a"
                                     "2024-01-01 00:00:01"]
                                  rng0))))));
          ("total_count",
           JInt (Z.of_nat
                   (List.length
                      (firstn 10
                         (rev (db (MkWorld
                                     [Db.MkUrlRecord 1 "82795f" "http://a"
                                        "2024-01-01 00:00:00";
                                      Db.MkUrlRecord 2 "115ec9" "http://a"
                                        "2024-01-01 00:00:01"]
                                     rng0)))))))]
         200.
Proof.
  apply (list_shows_last_ten
           (MkWorld
              [Db.MkUrlRecord 1 "82795f" "http://a" "2024-01-01 00:00:00";
               Db.MkUrlRecord 2 "115ec9" "http://a" "2024-01-01 00:00:01"]
              rng0)).
  repeat constructor.
Defined.

(** ** Answers *)

(** X18: every answer that the views [health_check], [shorten_url],
    [redirect_url], [get_stats] and [list_urls] return has status 200, 201,
    302, 400, 404 or 500, and each of them with status 400 or above is a
    JSON object whose only member is an [error] string.  ([index] is not
    among them: an exception other than FileNotFoundError leaves it.) *)
Theorem answers_are_well_formed :
  forall (env : Env) (req : Request) (w : World),
    req <> GetIndex ->
    In (status (fst (handle env req w))) [200; 201; 302; 400; 404; 500]
    /\ (400 <= status (fst (handle env req w)) ->
        is_error (fst (handle env req w)) (status (fst (handle env req w)))).
Proof.
  intros env req w Hreq.
  destruct req as [ | |body|code| | ]; cbn [handle].
  - contradiction.
  - cbn. split; [auto|]. intros H. exfalso. lia.
  - destruct (shorten_url_cases env body w)
      as [[code [Hc [[msg Herr] _]]] | [d [url [c H]]]].
    + rewrite Herr. cbn [jsonify status].
      split; [|intros _; exists msg; reflexivity].
      destruct Hc as [-> | ->]; cbn; auto 10.
    + destruct H as [_ [_ [_ [_ [Hr _]]]]]. rewrite Hr.
      cbn. split; [auto|]. intros H. exfalso. lia.
  - rewrite redirect_url_eq. cbn [fst].
    destruct (Db.select_long_url (db w) code) as [u|].
    + unfold Werkzeug.redirect. destruct (Werkzeug.has_newline u).
      * cbn. split; [auto 10|]. intros _. eexists. reflexivity.
      * cbn. split; [auto|]. intros H. exfalso. lia.
    + cbn. split; [auto 10|]. intros _. eexists. reflexivity.
  - cbn. split; [auto|]. intros H. exfalso. lia.
  - cbn. split; [auto|]. intros H. exfalso. lia.
Qed.

Lemma answers_are_well_formed_witness :
  In (status (fst (handle env0 (GetCode "8a2af6") world_newline)))
     [200; 201; 302; 400; 404; 500]
  /\ is_error (fst (handle env0 (GetCode "8a2af6") world_newline))
       (status (fst (handle env0 (GetCode "8a2af6") world_newline))).
Proof.
  assert (Hreq : GetCode "8a2af6" <> GetIndex) by discriminate.
  split.
  - apply (proj1 (answers_are_well_formed env0 (GetCode "8a2af6")
                    world_newline Hreq)).
  - apply (proj2 (answers_are_well_formed env0 (GetCode "8a2af6")
                    world_newline Hreq)).
    vm_compute. repeat constructor.
Defined.

(** X19: a url that has run out of candidates stays out: once rows carry all
    five candidates of a valid url, every later request to shorten it is
    answered with the 500 failure, whatever was served in between. *)
Theorem exhaustion_is_permanent :
  forall (reqs : list (Env * Request)) (env : Env)
         (d : list (string * json)) (url : string) (w : World),
    dict_get "url" d = Some (JStr url) ->
    valid_url url = true ->
    (forall c : string, In c (candidates url) -> In c (codes (db w))) ->
    fst (shorten_url env (Ok (JObj d)) (snd (serve reqs w)))
    = jsonify [("error", JStr "Failed to generate unique short code")] 500.
Proof.
  intros reqs env d url w Hd Hv Hall.
  destruct (shorten_url_valid env d url (snd (serve reqs w)) Hd Hv)
    as [g' Hg'].
  assert (Hnone : first_free (db (snd (serve reqs w))) (candidates url)
                  = None).
  { apply first_free_none. intros c Hc.
    destruct (serve_appends reqs w) as [new [Hn _]].
    rewrite Hn. unfold codes. rewrite map_app. apply in_or_app. left.
    apply Hall. exact Hc. }
  rewrite Hnone in Hg'. rewrite Hg'. reflexivity.
Qed.

Lemma exhaustion_is_permanent_witness :
  fst (shorten_url env0 (Ok (JObj [("url", JStr "http://a")]))
         (snd (serve (same_url_runs 2) (world_after 5))))
  = jsonify [("error", JStr "Failed to generate unique short code")] 500.
Proof.
  apply (exhaustion_is_permanent (same_url_runs 2) env0
           [("url", JStr "http://a")] "http://a" (world_after 5)).
  - reflexivity.
  - reflexivity.
  - vm_compute. tauto.
Defined.

(** X20: in every reachable state a path segment that is not six characters
    long is no stored code: [GET /<code>] answers it with 404. *)
Theorem other_lengths_not_found :
  forall (w : World) (code : string),
    reachable w ->
    String.length code <> 6 ->
    redirect_url code w
    = (jsonify [("error", JStr "Short URL not found")] 404, w).
Proof.
  intros w code Hw Hlen. rewrite redirect_url_eq.
  unfold Db.select_long_url.
  destruct (find (Db.has_code code) (db w)) as [r|] eqn:E; [|reflexivity].
  exfalso. apply find_some in E. destruct E as [Hr Hc].
  apply String.eqb_eq in Hc.
  destruct (reachable_rows w Hw r Hr) as [_ Hin].
  apply candidates_shape in Hin. destruct Hin as [H6 _].
  rewrite Hc in H6. contradiction.
Qed.

Lemma other_lengths_not_found_witness :
  redirect_url "favicon.ico" (world_after 3)
  = (jsonify [("error", JStr "Short URL not found")] 404, world_after 3).
Proof.
  apply (other_lengths_not_found (world_after 3) "favicon.ico").
  - apply serve_reachable. apply reach_init.
  - vm_compute. discriminate.
Defined.

(** ** Round trips and lookups *)





(** X23: a url that passes the prefix check but holds a lone surrogate is
    not shortened: [url.encode()] raises in [generate_short_code] before
    anything is drawn or written, and the answer is 500 with the text of
    the UnicodeEncodeError. *)
Theorem shorten_url_lone_surrogate :
  forall (env : Env) (d : list (string * json)) (before after : string)
         (k : nat) (w : World),
    dict_get "url" d = Some (JStr (Surr before k after)) ->
    valid_url (PyStr.bytes (Surr before k after)) = true ->
    shorten_url env (Ok (JObj d)) w
    = (jsonify [("error", JStr (PyStr.encode_error before k after))] 500, w).
Proof.
  intros env d before after k w Hd Hv.
  assert (Ht : Nat.eqb (List.length d) 0 = false)
    by (destruct d; [discriminate | reflexivity]).
  run_handler. rewrite Ht, (dict_get_key _ _ _ Hd), Hd. cbn [negb].
  fold (valid_url (PyStr.bytes (Surr before k after))). rewrite Hv.
  cbn [negb]. unfold with_rng, generate_short_code. cbn [PyStr.encode].
  destruct w. reflexivity.
Qed.

Lemma shorten_url_lone_surrogate_witness :
  shorten_url env0 (Ok (JObj [("url", JStr (Surr "http://a" 0 ""))])) world0
  = (jsonify [("error", JStr (PyStr.encode_error "http://a" 0 ""))] 500,
     world0).
Proof.
  apply (shorten_url_lone_surrogate env0
           [("url", JStr (Surr "http://a" 0 ""))] "http://a" "" 0 world0).
  - reflexivity.
  - vm_compute. reflexivity.
Defined.
